(** * Marstek tiered polling coordinator

    A shallow embedding of [custom_components/marstek/coordinator.py]:
    the class [MarstekDataUpdateCoordinator] with its tiered poll
    ([_async_update_data]), the config-entry listener
    ([_async_config_entry_updated]) and the rename propagation
    ([_update_entity_names]).

    Python [float] is IEEE-754 binary64, which is Rocq's primitive [float];
    [dict] is a [gmap]; [str] is [string]; exceptions are an error monad over
    an explicit state made of the coordinator object, the two Home Assistant
    registries and the log of calls made to external collaborators. *)

From Stdlib Require Import ZArith Floats.
From stdpp Require Import base gmap strings list fin_maps.

Local Open Scope string_scope.

(** ** Python strings *)

Module Py.

(** [s.startswith(p)] *)
Fixpoint startswith (p s : string) : bool :=
  match p, s with
  | EmptyString, _ => true
  | String a p', String b s' => if decide (a = b) then startswith p' s' else false
  | String _ _, EmptyString => false
  end.

(** [sub in s] on [str]: some suffix of [s] starts with [sub]. *)
Fixpoint contains (sub s : string) : bool :=
  startswith sub s ||
  match s with
  | EmptyString => false
  | String _ s' => contains sub s'
  end.

(** [s.replace("", new)]: [new] goes before every character and at the end. *)
Fixpoint replace_empty (new s : string) : string :=
  match s with
  | EmptyString => new
  | String c s' => new +:+ String c (replace_empty new s')
  end.

(** Left-to-right scan of [s.replace(old, new)] for a non-empty [old];
    [skip] counts the characters of a match that are still to be dropped. *)
Fixpoint replace_scan (old new : string) (skip : nat) (s : string) : string :=
  match s with
  | EmptyString => EmptyString
  | String c s' =>
      match skip with
      | S k => replace_scan old new k s'
      | O =>
          if startswith old s
          then new +:+ replace_scan old new (String.length old - 1) s'
          else String c (replace_scan old new 0 s')
      end
  end.

(** [s.replace(old, new)]: every non-overlapping occurrence, leftmost first. *)
Definition replace (old new s : string) : string :=
  match old with
  | EmptyString => replace_empty new s
  | String _ _ => replace_scan old new 0 s
  end.

(** Truth value of an [Optional[str]]: [None] and [""] are falsy. *)
Definition truthy (o : option string) : bool :=
  match o with
  | Some (String _ _) => true
  | _ => false
  end.

(** [name and old in name] on an [Optional[str]] name. *)
Definition mentions (old : string) (name : option string) : bool :=
  truthy name && contains old (default "" name).

(** [a or b] on [Optional[str]]. *)
Definition or_ (a b : option string) : option string :=
  if truthy a then a else b.

(** The values a status record holds ([dict[str, Any]]). *)
Inductive value : Type :=
  | VNone
  | VBool (b : bool)
  | VInt (z : Z)
  | VFloat (f : float)
  | VStr (s : string).

(** [v != s] for a [str] literal [s]: only an equal [str] compares equal. *)
Definition ne_str (v : value) (s : string) : bool :=
  match v with
  | VStr t => negb (bool_decide (t = s))
  | _ => true
  end.

(** The exception classes the coordinator distinguishes.  A constructor
    stands for the class and its subclasses; [TimeoutError] is listed apart
    from [OSError] because the source raises it itself.  [UpdateFailed] keeps
    its [__cause__]. *)
Inductive exception : Type :=
  | TimeoutError (msg : string)
  | OSError (msg : string)
  | ValueError (msg : string)
  | KeyError (msg : string)
  | UpdateFailed (msg : string) (cause : exception)
  | OtherException (cls msg : string).

End Py.

(** ** Home Assistant objects the coordinator talks to *)

(** [homeassistant.const.CONF_HOST] *)
Definition CONF_HOST : string := "host".

(** A config entry: its id and its [data] mapping (host and MAC strings). *)
Module ConfigEntry.
Record t : Type := mk { entry_id : string; data : gmap string string }.
End ConfigEntry.

(** Device registry ([homeassistant.helpers.device_registry]).  The registry
    is a dict keyed by device id, so [device.id] is the key of the entry. *)
Module dr.
Record DeviceEntry : Type :=
  mk { identifiers : gset (string * string); name : option string }.

Definition set_name (n : string) (d : DeviceEntry) : DeviceEntry :=
  {| identifiers := identifiers d; name := Some n |}.

#[global] Instance DeviceEntry_eq_dec : EqDecision DeviceEntry.
Proof. solve_decision. Defined.

Definition matches (ids : gset (string * string)) (p : string * DeviceEntry) : Prop :=
  identifiers p.2 ∩ ids ≠ ∅.

#[global] Instance matches_dec ids p : Decision (matches ids p).
Proof. unfold matches. apply _. Defined.

(** [registry.async_get_device(identifiers=ids)] *)
Definition async_get_device (reg : gmap string DeviceEntry)
    (ids : gset (string * string)) : option (string * DeviceEntry) :=
  head (filter (matches ids) (map_to_list reg)).
End dr.

(** Entity registry ([homeassistant.helpers.entity_registry]), a dict keyed
    by [entity_id]. *)
Module er.
Record RegistryEntry : Type :=
  mk { config_entry_id : option string; name : option string }.

Definition set_name (n : string) (e : RegistryEntry) : RegistryEntry :=
  {| config_entry_id := config_entry_id e; name := Some n |}.

#[global] Instance RegistryEntry_eq_dec : EqDecision RegistryEntry.
Proof. solve_decision. Defined.

Definition belongs (entry_id : string) (p : string * RegistryEntry) : Prop :=
  config_entry_id p.2 = Some entry_id.

#[global] Instance belongs_dec entry_id p : Decision (belongs entry_id p).
Proof. unfold belongs. apply _. Defined.

(** [er.async_entries_for_config_entry(registry, entry_id)] *)
Definition async_entries_for_config_entry (reg : gmap string RegistryEntry)
    (entry_id : string) : list (string * RegistryEntry) :=
  filter (belongs entry_id) (map_to_list reg).
End er.

Record HomeAssistant : Type := mkHass {
  device_registry : gmap string dr.DeviceEntry;
  entity_registry : gmap string er.RegistryEntry;
}.

(** ** The device client ([pymarstek.MarstekUDPClient]) *)

(** Result of a call: a value or a raised exception. *)
Inductive outcome (A : Type) : Type :=
  | Return (a : A)
  | Raise (e : Py.exception).
Arguments Return {A} a.
Arguments Raise {A} e.

(** The keyword arguments of [get_device_status]. *)
Record fetch_request : Type := mkRequest {
  address : string;
  port : Z;
  timeout : float;
  include_pv : bool;
  include_wifi : bool;
  include_em : bool;
  include_bat : bool;
  delay_between_requests : float;
  previous_status : option (gmap string Py.value);
}.

(** The client is code outside this file: any pair of functions.  A record
    is the client as it is during one poll; see [with_client] for its
    change from one poll to the next. *)
Record MarstekUDPClient : Type := mkClient {
  is_polling_paused : string → bool;
  get_device_status : fetch_request → outcome (gmap string Py.value);
}.

(** ** The coordinator object *)

(** The intervals are the Python ints 60 and 300; a float is compared with an
    int by value, and both are exact in binary64. *)
Definition MEDIUM_POLL_INTERVAL : float := 60.
Definition SLOW_POLL_INTERVAL : float := 300.

Record MarstekDataUpdateCoordinator : Type := mkCoordinator {
  udp_client : MarstekUDPClient;
  config_entry : option ConfigEntry.t;
  _initial_device_ip : string;
  _last_pv_fetch : float;
  _last_slow_fetch : float;
  data : option (gmap string Py.value);
}.

(** [__init__]: both tier timestamps start at [0.0], [data] at [None]. *)
Definition __init__ (config_entry : ConfigEntry.t) (udp_client : MarstekUDPClient)
    (device_ip : string) : MarstekDataUpdateCoordinator :=
  {| udp_client := udp_client;
     config_entry := Some config_entry;
     _initial_device_ip := device_ip;
     _last_pv_fetch := 0;
     _last_slow_fetch := 0;
     data := None |}.

(** Calls made to the collaborators, oldest first.  Of the logger calls only
    the final report of [_update_entity_names] is kept: the others carry no
    value the program reads back. *)
Inductive call : Type :=
  | GetDeviceStatus (req : fetch_request)
  | DrGetDevice (ids : gset (string * string))
  | DrUpdateDevice (device_id new_name : string)
  | ErEntriesForConfigEntry (entry_id : string)
  | ErUpdateEntity (entity_id new_name : string)
  | LogUpdatedCount (updated_count : nat) (old_ip new_ip : string).

Record State : Type := mkState {
  self : MarstekDataUpdateCoordinator;
  hass : HomeAssistant;
  calls : list call;
}.

(** ** State and exceptions *)

Definition M (A : Type) : Type := State → outcome A * State.

Definition ret {A} (a : A) : M A := λ st, (Return a, st).

Definition bind {A B} (m : M A) (k : A → M B) : M B :=
  λ st, match m st with
        | (Return a, st') => k a st'
        | (Raise e, st') => (Raise e, st')
        end.

Definition raise {A} (e : Py.exception) : M A := λ st, (Raise e, st).

(** [try: body except classes as err: handler err] *)
Definition try_except {A} (body : M A) (classes : Py.exception → bool)
    (handler : Py.exception → M A) : M A :=
  λ st, match body st with
        | (Return a, st') => (Return a, st')
        | (Raise e, st') => if classes e then handler e st' else (Raise e, st')
        end.

(** stdpp's monad notation: [x ← m; k] and [m ;; k]. *)
#[global] Instance M_ret : MRet M := @ret.
#[global] Instance M_bind : MBind M := λ A B k m, bind m k.

Definition get_self : M MarstekDataUpdateCoordinator := λ st, (Return (self st), st).

Definition get_hass : M HomeAssistant := λ st, (Return (hass st), st).

Definition put_self (c : MarstekDataUpdateCoordinator) : M unit :=
  λ st, (Return tt, {| self := c; hass := hass st; calls := calls st |}).

Definition put_hass (h : HomeAssistant) : M unit :=
  λ st, (Return tt, {| self := self st; hass := h; calls := calls st |}).

Definition record (c : call) : M unit :=
  λ st, (Return tt, {| self := self st; hass := hass st; calls := calls st ++ [c] |}).

Definition when (b : bool) (m : M unit) : M unit := if b then m else ret tt.

(** [for x in xs: acc = body acc x] *)
Fixpoint for_each {A B} (xs : list A) (acc : B) (body : B → A → M B) : M B :=
  match xs with
  | [] => ret acc
  | x :: xs' => acc' ← body acc x; for_each xs' acc' body
  end.

(** Attribute assignments on [self]. *)
Definition set__last_pv_fetch (t : float) : M unit :=
  c ← get_self;
  put_self {| udp_client := udp_client c; config_entry := config_entry c;
              _initial_device_ip := _initial_device_ip c;
              _last_pv_fetch := t; _last_slow_fetch := _last_slow_fetch c;
              data := data c |}.

Definition set__last_slow_fetch (t : float) : M unit :=
  c ← get_self;
  put_self {| udp_client := udp_client c; config_entry := config_entry c;
              _initial_device_ip := _initial_device_ip c;
              _last_pv_fetch := _last_pv_fetch c; _last_slow_fetch := t;
              data := data c |}.

Definition set__initial_device_ip (ip : string) : M unit :=
  c ← get_self;
  put_self {| udp_client := udp_client c; config_entry := config_entry c;
              _initial_device_ip := ip;
              _last_pv_fetch := _last_pv_fetch c;
              _last_slow_fetch := _last_slow_fetch c;
              data := data c |}.

(** ** Calls to the collaborators *)

(** [await self.udp_client.get_device_status(...)] *)
Definition await_get_device_status (req : fetch_request) : M (gmap string Py.value) :=
  c ← get_self;
  record (GetDeviceStatus req) ;;
  match get_device_status (udp_client c) req with
  | Return d => ret d
  | Raise e => raise e
  end.

(** [device_registry.async_get_device(identifiers=ids)] *)
Definition dr_async_get_device (ids : gset (string * string))
    : M (option (string * dr.DeviceEntry)) :=
  h ← get_hass;
  record (DrGetDevice ids) ;;
  ret (dr.async_get_device (device_registry h) ids).

(** [device_registry.async_update_device(device_id, name=new_name)];
    an unknown id is a [KeyError]. *)
Definition dr_async_update_device (device_id new_name : string) : M unit :=
  h ← get_hass;
  record (DrUpdateDevice device_id new_name) ;;
  match device_registry h !! device_id with
  | Some d =>
      put_hass {| device_registry := <[device_id := dr.set_name new_name d]> (device_registry h);
                  entity_registry := entity_registry h |}
  | None => raise (Py.KeyError device_id)
  end.

(** [er.async_entries_for_config_entry(entity_registry, entry_id)] *)
Definition er_async_entries_for_config_entry (entry_id : string)
    : M (list (string * er.RegistryEntry)) :=
  h ← get_hass;
  record (ErEntriesForConfigEntry entry_id) ;;
  ret (er.async_entries_for_config_entry (entity_registry h) entry_id).

(** [entity_registry.async_update_entity(entity_id, name=new_name)];
    an unknown id is a [KeyError]. *)
Definition er_async_update_entity (entity_id new_name : string) : M unit :=
  h ← get_hass;
  record (ErUpdateEntity entity_id new_name) ;;
  match entity_registry h !! entity_id with
  | Some e =>
      put_hass {| device_registry := device_registry h;
                  entity_registry := <[entity_id := er.set_name new_name e]> (entity_registry h) |}
  | None => raise (Py.KeyError entity_id)
  end.

(** ** The coordinator's methods *)

(** [except (TimeoutError, OSError, ValueError)] *)
Definition polling_errors (e : Py.exception) : bool :=
  match e with
  | Py.TimeoutError _ | Py.OSError _ | Py.ValueError _ => true
  | _ => false
  end.

(** [self.data or {}]: [None] and the empty dict are falsy. *)
Definition data_or_empty (d : option (gmap string Py.value)) : gmap string Py.value :=
  match d with
  | Some m => if decide (m = ∅) then ∅ else m
  | None => ∅
  end.

(** The [device_ip] property. *)
Definition device_ip (c : MarstekDataUpdateCoordinator) : string :=
  match config_entry c with
  | Some entry => default (_initial_device_ip c) (ConfigEntry.data entry !! CONF_HOST)
  | None => _initial_device_ip c
  end.

(** [data.get("ble_mac") or data.get("mac") or data.get("wifi_mac")] *)
Definition device_identifier (entry : ConfigEntry.t) : option string :=
  Py.or_ (Py.or_ (ConfigEntry.data entry !! "ble_mac")
                 (ConfigEntry.data entry !! "mac"))
         (ConfigEntry.data entry !! "wifi_mac").

Section Coordinator.

(** [const.DOMAIN] and [const.DEFAULT_UDP_PORT]; [const.py] fixes them. *)
Variable DOMAIN : string.
Variable DEFAULT_UDP_PORT : Z.

(** The [try] block of [_async_update_data], from the fetch to the return. *)
Definition _async_update_data_try (current_ip : string) (current_time : float)
    (include_pv include_slow : bool) : M (gmap string Py.value) :=
  c ← get_self;
  device_status ← await_get_device_status
    {| address := current_ip;
       port := DEFAULT_UDP_PORT;
       timeout := 10;
       include_pv := include_pv;
       include_wifi := include_slow;
       include_em := true;
       include_bat := include_slow;
       delay_between_requests := 10;
       previous_status := data c |};
  when include_pv (set__last_pv_fetch current_time) ;;
  when include_slow (set__last_slow_fetch current_time) ;;
  let device_mode := default (Py.VStr "Unknown") (device_status !! "device_mode") in
  let has_valid_data := Py.ne_str device_mode "Unknown" in
  if negb has_valid_data
  then raise (Py.TimeoutError ("No valid data received from device at " +:+ current_ip))
  else mret device_status.

(** [_async_update_data]; [current_time] is the value [time.monotonic()]
    returns in this call. *)
Definition _async_update_data (current_time : float) : M (gmap string Py.value) :=
  c ← get_self;
  let current_ip := device_ip c in
  if is_polling_paused (udp_client c) current_ip
  then mret (data_or_empty (data c))
  else
    let include_pv :=
      (MEDIUM_POLL_INTERVAL <=? current_time - _last_pv_fetch c)%float in
    let include_slow :=
      (SLOW_POLL_INTERVAL <=? current_time - _last_slow_fetch c)%float in
    try_except
      (_async_update_data_try current_ip current_time include_pv include_slow)
      polling_errors
      (λ err, raise (Py.UpdateFailed ("Polling failed for " +:+ current_ip) err)).

(** The body of the [for entity_entry in entities] loop. *)
Definition rename_entity (new_ip old_ip : string) (updated_count : nat)
    (entity_entry : string * er.RegistryEntry) : M nat :=
  if Py.mentions old_ip (er.name entity_entry.2)
  then
    let new_name := Py.replace old_ip new_ip (default "" (er.name entity_entry.2)) in
    er_async_update_entity entity_entry.1 new_name ;;
    mret (S updated_count)
  else mret updated_count.

(** The device-registry half of [_update_entity_names]. *)
Definition rename_device (entry : ConfigEntry.t) (new_ip old_ip : string) : M unit :=
  let device_identifier := device_identifier entry in
  when (Py.truthy device_identifier)
    (device ← dr_async_get_device {[ (DOMAIN, default "" device_identifier) ]};
     match device with
     | Some (device_id, d) =>
         when (Py.mentions old_ip (dr.name d))
           (dr_async_update_device device_id
              (Py.replace old_ip new_ip (default "" (dr.name d))))
     | None => mret tt
     end).

(** [_update_entity_names] *)
Definition _update_entity_names (new_ip old_ip : string) : M unit :=
  c ← get_self;
  match config_entry c with
  | None => mret tt
  | Some entry =>
      rename_device entry new_ip old_ip ;;
      entities ← er_async_entries_for_config_entry (ConfigEntry.entry_id entry);
      updated_count ← for_each entities 0 (rename_entity new_ip old_ip);
      when (bool_decide (0 < updated_count))
        (record (LogUpdatedCount updated_count old_ip new_ip))
  end.

(** [_async_config_entry_updated], the update listener of the config entry. *)
Definition _async_config_entry_updated (entry : ConfigEntry.t) : M unit :=
  c ← get_self;
  match config_entry c with
  | None => mret tt
  | Some _ =>
      let old_ip := _initial_device_ip c in
      let new_ip := default old_ip (ConfigEntry.data entry !! CONF_HOST) in
      when (bool_decide (new_ip ≠ old_ip))
        (_update_entity_names new_ip old_ip ;;
         set__initial_device_ip new_ip)
  end.

(** What Home Assistant does when the data of the entry changes
    ([hass.config_entries.async_update_entry]).  First the entry object,
    which the coordinator holds in [self.config_entry], gets the new [data]. *)
Definition set_entry_data (new_data : gmap string string) : M unit :=
  c ← get_self;
  put_self {| udp_client := udp_client c;
              config_entry :=
                (λ entry, ConfigEntry.mk (ConfigEntry.entry_id entry) new_data)
                  <$> config_entry c;
              _initial_device_ip := _initial_device_ip c;
              _last_pv_fetch := _last_pv_fetch c;
              _last_slow_fetch := _last_slow_fetch c;
              data := data c |}.

(** Then every update listener is called with that same object. *)
Definition async_update_entry (new_data : gmap string string) : M unit :=
  set_entry_data new_data ;;
  c ← get_self;
  match config_entry c with
  | Some entry => _async_config_entry_updated entry
  | None => mret tt
  end.

End Coordinator.

(** ** Observations used in the statements *)

(** The count the rename propagation reported, [0] when it reported none. *)
Fixpoint reported_count (cs : list call) : nat :=
  match cs with
  | [] => 0
  | LogUpdatedCount n _ _ :: cs' => n + reported_count cs'
  | _ :: cs' => reported_count cs'
  end.



(** The device [_update_entity_names] finds for the entry, if any: none when
    the entry has no truthy MAC or the registry has no such identifier. *)
Definition found_device (DOMAIN : string) (h : HomeAssistant) (entry : ConfigEntry.t)
    : option (string * dr.DeviceEntry) :=
  if Py.truthy (device_identifier entry)
  then dr.async_get_device (device_registry h)
         {[ (DOMAIN, default "" (device_identifier entry)) ]}
  else None.

(** ** The client from one poll to the next *)

(** The client is a mutable object: which addresses it has paused and what
    it answers can differ from one poll to the next.  [with_client c st] is
    [st] with the client in the condition [c] it is in when the next poll
    starts. *)
Definition with_client (c : MarstekUDPClient) (st : State) : State :=
  {| self := {| udp_client := c;
                config_entry := config_entry (self st);
                _initial_device_ip := _initial_device_ip (self st);
                _last_pv_fetch := _last_pv_fetch (self st);
                _last_slow_fetch := _last_slow_fetch (self st);
                data := data (self st) |};
     hass := hass st;
     calls := calls st |}.

(** The identifier sets of the device lookups in a list of calls, in order. *)
Fixpoint device_lookups (cs : list call) : list (gset (string * string)) :=
  match cs with
  | [] => []
  | DrGetDevice ids :: cs' => ids :: device_lookups cs'
  | _ :: cs' => device_lookups cs'
  end.

(** ** The repair flow ([repairs.py]) *)

Module Repairs.

(** [homeassistant.config_entries.SOURCE_RECONFIGURE] *)
Definition SOURCE_RECONFIGURE : string := "reconfigure".

(** What a flow step returns: [async_abort], [async_create_entry] or
    [async_show_form] (whose schema here is always the empty one). *)
Inductive FlowResult : Type :=
  | Abort (reason : string)
  | CreateEntry (data : gmap string string)
  | Form (step_id : string) (description_placeholders : gmap string string).

(** The part of Home Assistant the flow uses: the config entries, the issue
    registry as the set of (domain, issue id) pairs, the calls made to
    [config_entries.flow.async_init] with their context, oldest first, and
    what such a call does - code outside this file, so any function. *)
Record Hass : Type := mkHass {
  config_entries : list ConfigEntry.t;
  issues : gset (string * string);
  flow_inits : list (string * gmap string string);
  flow_async_init : string → gmap string string → outcome unit;
}.

(** [hass.config_entries.async_get_entry(entry_id)] *)
Definition async_get_entry (h : Hass) (entry_id : string) : option ConfigEntry.t :=
  List.find (λ e, bool_decide (ConfigEntry.entry_id e = entry_id)) (config_entries h).

(** [ir.async_delete_issue(hass, domain, issue_id)] *)
Definition async_delete_issue (h : Hass) (domain issue_id : string) : Hass :=
  {| config_entries := config_entries h;
     issues := issues h ∖ {[ (domain, issue_id) ]};
     flow_inits := flow_inits h;
     flow_async_init := flow_async_init h |}.

(** The flow object; [__init__] stores the entry id. *)
Record CannotConnectRepairFlow : Type := mkFlow { _entry_id : string }.

Section Flow.

Variable DOMAIN : string.

(** [CannotConnectRepairFlow.async_step_init]; [issue_id] is the attribute
    [self.issue_id], which Home Assistant sets on the flow it has created. *)
Definition async_step_init (self : CannotConnectRepairFlow) (issue_id : string)
    (user_input : option (gmap string string)) (h : Hass)
    : outcome FlowResult * Hass :=
  match async_get_entry h (_entry_id self) with
  | None => (Return (Abort "entry_not_found"), h)
  | Some entry =>
      match user_input with
      | Some _ =>
          let context : gmap string string :=
            {[ "source" := SOURCE_RECONFIGURE;
               "entry_id" := ConfigEntry.entry_id entry ]} in
          let h1 :=
            {| config_entries := config_entries h;
               issues := issues h;
               flow_inits := flow_inits h ++ [(DOMAIN, context)];
               flow_async_init := flow_async_init h |} in
          match flow_async_init h DOMAIN context with
          | Raise e => (Raise e, h1)
          | Return _ =>
              (Return (CreateEntry ∅), async_delete_issue h1 DOMAIN issue_id)
          end
      | None =>
          (Return (Form "init"
                     {[ "host" := default "unknown"
                                    (ConfigEntry.data entry !! "host") ]}),
           h)
      end
  end.

End Flow.

(** [async_create_fix_flow(hass, issue_id, data)]; neither [hass] nor
    [issue_id] is read. *)
Definition async_create_fix_flow (issue_id : string)
    (data : option (gmap string string)) : outcome CannotConnectRepairFlow :=
  let entry_id :=
    match data with
    | Some d => if decide (d = ∅) then None else d !! "entry_id"
    | None => None
    end in
  match entry_id with
  | None => Raise (Py.ValueError "No entry_id in issue data")
  | Some entry_id => Return {| _entry_id := entry_id |}
  end.

(** A host with one entry, one open issue for it, and a flow manager that
    accepts every flow. *)
Definition demo_hass : Hass :=
  {| config_entries :=
       [ConfigEntry.mk "entry1" {[ "host" := "10.0.0.1"; "mac" := "aabbccddeeff" ]}];
     issues := {[ ("marstek", "cannot_connect_entry1") ]};
     flow_inits := [];
     flow_async_init := λ _ _, Return tt |}.

End Repairs.

(** ** A concrete installation, for evaluation *)

Module Demo.

Definition udp_port : Z := 30000.

(** A client that is never paused and answers every fetch with [d]. *)
Definition client (d : outcome (gmap string Py.value)) : MarstekUDPClient :=
  {| is_polling_paused := λ _, false; get_device_status := λ _, d |}.

Definition paused_client : MarstekUDPClient :=
  {| is_polling_paused := λ _, true; get_device_status := λ _, Return ∅ |}.

Definition entry (host : string) : ConfigEntry.t :=
  ConfigEntry.mk "entry1" {[ "host" := host; "mac" := "aabbccddeeff" ]}.

Definition registries : HomeAssistant :=
  {| device_registry :=
       {[ "dev1" := dr.mk {[ ("marstek", "aabbccddeeff") ]} (Some "Marstek 10.0.0.1") ]};
     entity_registry :=
       {[ "sensor.soc" := er.mk (Some "entry1") (Some "SOC 10.0.0.1");
          "sensor.power" := er.mk (Some "entry1") None;
          "sensor.other" := er.mk (Some "entry2") (Some "SOC 10.0.0.1") ]} |}.

(** A freshly built coordinator at address 10.0.0.1. *)
Definition fresh (c : MarstekUDPClient) : State :=
  {| self := __init__ (entry "10.0.0.1") c "10.0.0.1";
     hass := registries;
     calls := [] |}.

(** The same installation when the entry carries no MAC at all. *)
Definition fresh_no_mac (c : MarstekUDPClient) : State :=
  {| self := __init__ (ConfigEntry.mk "entry1" {[ "host" := "10.0.0.1" ]}) c "10.0.0.1";
     hass := registries;
     calls := [] |}.

(** The request a fresh coordinator sends at its first poll. *)
Definition first_request : fetch_request :=
  {| address := "10.0.0.1"; port := udp_port; timeout := 10;
     include_pv := true; include_wifi := true; include_em := true;
     include_bat := true; delay_between_requests := 10;
     previous_status := None |}.

Definition good_status : gmap string Py.value :=
  {[ "device_mode" := Py.VStr "Auto"; "battery_soc" := Py.VInt 55 ]}.

Definition unknown_status : gmap string Py.value :=
  {[ "device_mode" := Py.VStr "Unknown"; "battery_soc" := Py.VInt 0 ]}.

End Demo.

(** * Properties *)

Example replace_ex1 : Py.replace "1.2" "9.9.9" "a 1.2 b 1.2" = "a 9.9.9 b 9.9.9".
Proof. reflexivity. Qed.

Example replace_ex2 : Py.replace "aa" "b" "aaaaa" = "bba".
Proof. reflexivity. Qed.

Example replace_ex3 : Py.replace "" "-" "abc" = "-a-b-c-".
Proof. reflexivity. Qed.

Example contains_ex : Py.contains "0.1" "SOC 10.0.0.1" = true ∧ Py.contains "0.2" "SOC 10.0.0.1" = false.
Proof. split; reflexivity. Qed.

(** ** Strings: what [replace] does to a name *)

Section Strings.

Local Open Scope nat_scope.

Implicit Types old new p q s t : string.










(** [replace] leaves a name that does not contain [old] as it is. *)
Lemma replace_absent old new s :
  Py.contains old s = false → Py.replace old new s = s.
Proof.
  destruct old as [|a old]; [by destruct s|]. unfold Py.replace.
  induction s as [|c s IH]; [done|].
  cbn [Py.contains Py.replace_scan]. intros [E1 E2]%orb_false_iff.
  rewrite E1. by rewrite IH.
Qed.


End Strings.

(** ** The poll *)

Lemma data_or_empty_default d : data_or_empty d = default ∅ d.
Proof. destruct d as [m|]; simpl; [|done]. by case_decide; subst. Qed.

Ltac run_monad :=
  cbv [mbind M_bind bind mret M_ret ret get_self get_hass put_self put_hass
       record raise when try_except].

Ltac proj :=
  cbn [self hass calls udp_client config_entry _initial_device_ip
       _last_pv_fetch _last_slow_fetch data device_registry entity_registry
       fst snd] in *.

Ltac unfold_poll :=
  unfold _async_update_data, _async_update_data_try, await_get_device_status,
    set__last_pv_fetch, set__last_slow_fetch;
  run_monad.

Section Poll.

Variable DEFAULT_UDP_PORT : Z.

Abbreviation poll := (_async_update_data DEFAULT_UDP_PORT).

(** A paused poll is the identity on the state and yields the stored record. *)
Lemma poll_paused_run now st :
  is_polling_paused (udp_client (self st)) (device_ip (self st)) = true →
  poll now st = (Return (data_or_empty (data (self st))), st).
Proof.
  intros Hp. unfold_poll. proj. by rewrite Hp.
Qed.

(** A poll that is not paused makes exactly one call, the fetch. *)
Lemma poll_fetches_once now st :
  is_polling_paused (udp_client (self st)) (device_ip (self st)) = false →
  ∃ req, calls (poll now st).2 = (calls st ++ [GetDeviceStatus req])%list.
Proof.
  intros Hp. destruct st as [[cl ce ip pv slow d] h cs]. simpl in *.
  unfold_poll. proj. rewrite Hp. cbv beta. proj.
  destruct (get_device_status cl _) as [r|e]; proj.
  - repeat match goal with |- context [if ?b then _ else _] => destruct b; proj end;
      eexists; reflexivity.
  - destruct (polling_errors e); eexists; reflexivity.
Qed.

(** No poll assigns [self.data], the client or the config entry. *)
Lemma poll_keeps_data now st :
  data (self (poll now st).2) = data (self st)
  ∧ config_entry (self (poll now st).2) = config_entry (self st)
  ∧ _initial_device_ip (self (poll now st).2) = _initial_device_ip (self st)
  ∧ hass (poll now st).2 = hass st.
Proof.
  destruct st as [[cl ce ip pv slow d] h cs]. unfold_poll. proj.
  destruct (is_polling_paused cl _); [done|]. cbv beta. proj.
  destruct (get_device_status cl _) as [r|e]; proj.
  - repeat match goal with |- context [if ?b then _ else _] => destruct b; proj end;
      done.
  - by destruct (polling_errors e).
Qed.

(** When the fetch itself raises, the tier timestamps stay as they were. *)
Lemma poll_fetch_raises_frame now st req e :
  is_polling_paused (udp_client (self st)) (device_ip (self st)) = false →
  calls (poll now st).2 = (calls st ++ [GetDeviceStatus req])%list →
  get_device_status (udp_client (self st)) req = Raise e →
  (poll now st).1 =
    (if polling_errors e
     then Raise (Py.UpdateFailed ("Polling failed for " +:+ device_ip (self st)) e)
     else Raise e)
  ∧ _last_pv_fetch (self (poll now st).2) = _last_pv_fetch (self st)
  ∧ _last_slow_fetch (self (poll now st).2) = _last_slow_fetch (self st).
Proof.
  intros Hp. destruct st as [[cl ce ip pv slow d] h cs]. simpl in *.
  unfold_poll. proj. rewrite Hp. cbv beta. proj.
  destruct (get_device_status cl _) as [r|e'] eqn:E; proj.
  - repeat match goal with |- context [if ?b then _ else _] => destruct b; proj end;
      intros Hc; apply app_inv_head in Hc; injection Hc as <-; congruence.
  - destruct (polling_errors e') eqn:Ee; proj;
      intros Hc; apply app_inv_head in Hc; injection Hc as <-;
      intros He; rewrite E in He; injection He as <-; by rewrite Ee.
Qed.

(** C1: a poll that is not paused calls the client once, with the fast tier
    always on, the PV flag set exactly when the monotonic clock is at least
    60 s past [_last_pv_fetch], and both slow flags (WiFi, battery detail)
    set exactly when it is at least 300 s past [_last_slow_fetch]. *)
Theorem poll_tier_flags now st :
  is_polling_paused (udp_client (self st)) (device_ip (self st)) = false →
  ∃ req,
    calls (poll now st).2 = (calls st ++ [GetDeviceStatus req])%list
    ∧ address req = device_ip (self st)
    ∧ include_em req = true
    ∧ (include_pv req = true ↔
         (60 <=? now - _last_pv_fetch (self st))%float = true)
    ∧ (include_wifi req = true ↔
         (300 <=? now - _last_slow_fetch (self st))%float = true)
    ∧ (include_bat req = true ↔
         (300 <=? now - _last_slow_fetch (self st))%float = true).
Proof.
  intros Hp. destruct st as [[cl ce ip pv slow d] h cs]. simpl in *.
  unfold_poll. proj. rewrite Hp. cbv beta. proj.
  unfold MEDIUM_POLL_INTERVAL, SLOW_POLL_INTERVAL.
  destruct (60 <=? now - pv)%float eqn:Epv, (300 <=? now - slow)%float eqn:Eslow;
    (destruct (get_device_status cl _) as [r|e]; proj;
     [ destruct (Py.ne_str _ _) | destruct (polling_errors e) ];
     proj; eexists; (split; [reflexivity|]); simpl; rewrite ?Epv, ?Eslow; done).
Qed.

(** What a poll yields once the fetch has returned [d]: the record when its
    mode is known, the failure otherwise; either way the due tiers are
    stamped with [now]. *)
Lemma poll_fetch_returns now st req d :
  is_polling_paused (udp_client (self st)) (device_ip (self st)) = false →
  calls (poll now st).2 = (calls st ++ [GetDeviceStatus req])%list →
  get_device_status (udp_client (self st)) req = Return d →
  (poll now st).1 =
    (if Py.ne_str (default (Py.VStr "Unknown") (d !! "device_mode")) "Unknown"
     then Return d
     else Raise (Py.UpdateFailed ("Polling failed for " +:+ device_ip (self st))
                   (Py.TimeoutError ("No valid data received from device at "
                                     +:+ device_ip (self st)))))
  ∧ _last_pv_fetch (self (poll now st).2) =
      (if include_pv req then now else _last_pv_fetch (self st))
  ∧ _last_slow_fetch (self (poll now st).2) =
      (if include_wifi req then now else _last_slow_fetch (self st)).
Proof.
  intros Hp. destruct st as [[cl ce ip pv slow d0] h cs]. simpl in *.
  unfold_poll. proj. rewrite Hp. cbv beta. proj.
  destruct (get_device_status cl _) as [r|e'] eqn:E; proj.
  - destruct (MEDIUM_POLL_INTERVAL <=? now - pv)%float,
             (SLOW_POLL_INTERVAL <=? now - slow)%float; proj;
      (destruct (Py.ne_str (default _ (r !! _)) _) eqn:Er; proj;
       intros Hc; apply app_inv_head in Hc; injection Hc as <-;
       intros He; rewrite E in He; injection He as <-;
       rewrite Er; done).
  - destruct (polling_errors e'); proj;
      intros Hc; apply app_inv_head in Hc; injection Hc as <-; congruence.
Qed.

(** C3: when the fetch returns a record whose [device_mode] is the sentinel
    "Unknown" (or is missing, which reads as the sentinel), the [try] block
    raises the no-valid-data [TimeoutError] and the poll ends in
    [UpdateFailed]; the record is not returned. *)
Theorem poll_unknown_mode_fails now st req d :
  is_polling_paused (udp_client (self st)) (device_ip (self st)) = false →
  calls (poll now st).2 = (calls st ++ [GetDeviceStatus req])%list →
  get_device_status (udp_client (self st)) req = Return d →
  d !! "device_mode" = Some (Py.VStr "Unknown") ∨ d !! "device_mode" = None →
  let ip := device_ip (self st) in
  let unavailable :=
    Py.TimeoutError ("No valid data received from device at " +:+ ip) in
  (_async_update_data_try DEFAULT_UDP_PORT ip now
     (include_pv req) (include_wifi req) st).1 = Raise unavailable
  ∧ (poll now st).1 = Raise (Py.UpdateFailed ("Polling failed for " +:+ ip) unavailable)
  ∧ ∀ r, (poll now st).1 ≠ Return r.
Proof.
  intros Hp Hc Hf Hm ip unavailable.
  assert (Hs : Py.ne_str (default (Py.VStr "Unknown") (d !! "device_mode")) "Unknown" = false).
  { destruct Hm as [-> | ->]; reflexivity. }
  destruct (poll_fetch_returns now st req d Hp Hc Hf) as (Ho & _ & _).
  rewrite Hs in Ho. split; [|split; [exact Ho|by rewrite Ho]].
  revert Hc Hf. clear Ho. subst ip unavailable.
  destruct st as [[cl ce ip pv slow d0] h cs]. simpl in *.
  unfold_poll. proj. rewrite Hp. cbv beta. proj.
  destruct (get_device_status cl _) as [r|e'] eqn:E; proj.
  - destruct (MEDIUM_POLL_INTERVAL <=? now - pv)%float,
             (SLOW_POLL_INTERVAL <=? now - slow)%float; proj;
      (destruct (Py.ne_str (default _ (r !! _)) _) eqn:Er; proj;
       intros Hc; apply app_inv_head in Hc; injection Hc as <-; proj;
       cbn [include_pv include_wifi]; rewrite E; proj;
       intros He; injection He as <-;
       rewrite ?Hs in *; proj; try rewrite Hs; try done; congruence).
  - destruct (polling_errors e'); proj;
      intros Hc; apply app_inv_head in Hc; injection Hc as <-; congruence.
Qed.

(** C4: while the client reports the address paused, the poll returns the
    stored record (the empty record when none is stored), leaves the whole
    state as it was - both tier timestamps included - and makes no call. *)
Theorem poll_paused_noop now st :
  is_polling_paused (udp_client (self st)) (device_ip (self st)) = true →
  poll now st = (Return (default ∅ (data (self st))), st).
Proof.
  intros Hp. rewrite (poll_paused_run now st Hp).
  by rewrite data_or_empty_default.
Qed.

(** C10: a paused poll on a coordinator that has no record yet succeeds
    with the empty mapping. *)
Theorem poll_paused_no_record now st :
  is_polling_paused (udp_client (self st)) (device_ip (self st)) = true →
  data (self st) = None →
  (poll now st).1 = Return ∅.
Proof.
  intros Hp Hd. rewrite (poll_paused_run now st Hp). by rewrite Hd.
Qed.

(** C5 (amended): in a poll that is not paused, a fetch that fails with
    [TimeoutError], [OSError] or [ValueError] (timeout, connection error,
    malformed response) is caught and re-raised as [UpdateFailed] with that
    error as its cause; a fetch that returns makes the poll return the
    record or raise [UpdateFailed]; an exception of any other class is not
    caught and leaves the poll as it is. *)
Theorem poll_wraps_caught_errors now st req :
  is_polling_paused (udp_client (self st)) (device_ip (self st)) = false →
  calls (poll now st).2 = (calls st ++ [GetDeviceStatus req])%list →
  let failed cause :=
    Raise (Py.UpdateFailed ("Polling failed for " +:+ device_ip (self st)) cause) in
  (∀ e, get_device_status (udp_client (self st)) req = Raise e →
     (∃ msg, e = Py.TimeoutError msg ∨ e = Py.OSError msg ∨ e = Py.ValueError msg) →
     (poll now st).1 = failed e)
  ∧ (∀ d, get_device_status (udp_client (self st)) req = Return d →
       (poll now st).1 = Return d
       ∨ (poll now st).1 =
           failed (Py.TimeoutError ("No valid data received from device at "
                                    +:+ device_ip (self st))))
  ∧ (∀ e, get_device_status (udp_client (self st)) req = Raise e →
       (∀ msg, e ≠ Py.TimeoutError msg ∧ e ≠ Py.OSError msg ∧ e ≠ Py.ValueError msg) →
       (poll now st).1 = Raise e).
Proof.
  intros Hp Hc failed. subst failed. cbv beta. split_and!.
  - intros e He (msg & Hcls).
    destruct (poll_fetch_raises_frame now st req e Hp Hc He) as (Ho & _).
    rewrite Ho. by destruct Hcls as [-> | [-> | ->]].
  - intros d Hd.
    destruct (poll_fetch_returns now st req d Hp Hc Hd) as (Ho & _).
    rewrite Ho. destruct (Py.ne_str _ _); [by left | by right].
  - intros e He Hcls.
    destruct (poll_fetch_raises_frame now st req e Hp Hc He) as (Ho & _).
    rewrite Ho. destruct e as [m|m|m|m|m c|c m]; cbn [polling_errors]; try done;
      destruct (Hcls m) as (? & ? & ?); done.
Qed.

End Poll.

(** C2: what the code does where the claim fails.  A fresh coordinator
    (both timestamps [0.0], no record) polls at monotonic time 1000 and the
    client returns a record whose mode is "Unknown".  The poll ends in
    [UpdateFailed] and [self.data] is untouched, but both tier timestamps
    have moved to 1000: they are assigned before the record is validated. *)
Theorem poll_unknown_mode_moves_timestamps :
  let st := Demo.fresh (Demo.client (Return Demo.unknown_status)) in
  let r := _async_update_data Demo.udp_port 1000 st in
  r.1 = Raise (Py.UpdateFailed "Polling failed for 10.0.0.1"
                 (Py.TimeoutError "No valid data received from device at 10.0.0.1"))
  ∧ data (self r.2) = data (self st)
  ∧ _last_pv_fetch (self st) = 0%float
  ∧ _last_slow_fetch (self st) = 0%float
  ∧ _last_pv_fetch (self r.2) = 1000%float
  ∧ _last_slow_fetch (self r.2) = 1000%float
  ∧ _last_pv_fetch (self r.2) ≠ _last_pv_fetch (self st)
  ∧ _last_slow_fetch (self r.2) ≠ _last_slow_fetch (self st).
Proof.
  vm_compute. repeat split; try reflexivity;
    intros H; apply (f_equal (λ x, PrimFloat.eqb x 0)) in H;
    vm_compute in H; discriminate.
Qed.

(** Four polls of a fresh coordinator against a healthy device, at monotonic
    times 1000, 1030, 1065 and 1305: all tiers, fast only, fast and PV, all
    tiers. *)
Example poll_scenario :
  let st0 := Demo.fresh (Demo.client (Return Demo.good_status)) in
  let st1 := (_async_update_data Demo.udp_port 1000 st0).2 in
  let st2 := (_async_update_data Demo.udp_port 1030 st1).2 in
  let st3 := (_async_update_data Demo.udp_port 1065 st2).2 in
  let st4 := (_async_update_data Demo.udp_port 1305 st3).2 in
  (λ c, match c with
        | GetDeviceStatus req => (include_em req, include_pv req, include_wifi req)
        | _ => (false, false, false)
        end) <$> calls st4
  = [(true, true, true); (true, false, false); (true, true, false); (true, true, true)].
Proof. vm_compute. reflexivity. Qed.

(** The same poll with a transport error instead: nothing moves. *)
Example poll_timeout_keeps_timestamps :
  let st := Demo.fresh (Demo.client (Raise (Py.TimeoutError "timed out"))) in
  let r := _async_update_data Demo.udp_port 1000 st in
  r.1 = Raise (Py.UpdateFailed "Polling failed for 10.0.0.1" (Py.TimeoutError "timed out"))
  ∧ _last_pv_fetch (self r.2) = 0%float
  ∧ _last_slow_fetch (self r.2) = 0%float.
Proof. vm_compute. repeat split; reflexivity. Qed.

(** ** The rename propagation *)

Section Rebind.

Variable DOMAIN : string.

Implicit Types new old : string.

Abbreviation entity_hits old :=
  (λ p : string * er.RegistryEntry, Py.mentions old (er.name p.2) = true).

Abbreviation new_name old new name := (Py.replace old new (default "" name)).

Abbreviation entity_update old new :=
  (λ p : string * er.RegistryEntry,
     ErUpdateEntity p.1 (new_name old new (er.name p.2))).

Lemma for_each_cons {A B} (x : A) (xs : list A) (acc : B) body st :
  for_each (x :: xs) acc body st =
    match body acc x st with
    | (Return acc', st') => for_each xs acc' body st'
    | (Raise e, st') => (Raise e, st')
    end.
Proof. reflexivity. Qed.

Lemma rename_entity_hit new old n k e st :
  Py.mentions old (er.name e) = true →
  entity_registry (hass st) !! k = Some e →
  rename_entity new old n (k, e) st =
    (Return (S n),
     {| self := self st;
        hass := {| device_registry := device_registry (hass st);
                   entity_registry :=
                     <[k := er.set_name (new_name old new (er.name e)) e]>
                       (entity_registry (hass st)) |};
        calls := (calls st ++ [ErUpdateEntity k (new_name old new (er.name e))])%list |}).
Proof.
  intros Hm Hk. unfold rename_entity, er_async_update_entity. proj. cbn [fst snd].
  rewrite Hm. run_monad. proj. by rewrite Hk.
Qed.

Lemma rename_entity_miss new old n k e st :
  Py.mentions old (er.name e) = false →
  rename_entity new old n (k, e) st = (Return n, st).
Proof.
  intros Hm. unfold rename_entity. cbn [fst snd]. by rewrite Hm.
Qed.

(** The [for] loop over a snapshot [l] of registry entries: it never raises,
    counts the entries whose name mentions [old], renames exactly those and
    touches nothing else. *)
Lemma rename_loop new old l : ∀ st n,
  NoDup l.*1 →
  (∀ k e, (k, e) ∈ l → entity_registry (hass st) !! k = Some e) →
  ∃ ents',
    for_each l n (rename_entity new old) st =
      (Return (n + length (filter (entity_hits old) l)),
       {| self := self st;
          hass := {| device_registry := device_registry (hass st);
                     entity_registry := ents' |};
          calls := (calls st ++
                    ((λ p, ErUpdateEntity p.1 (new_name old new (er.name p.2)))
                       <$> filter (entity_hits old) l))%list |})
    ∧ (∀ k e, (k, e) ∈ l →
         ents' !! k = Some (if Py.mentions old (er.name e)
                            then er.set_name (new_name old new (er.name e)) e
                            else e))
    ∧ (∀ k, k ∉ l.*1 → ents' !! k = entity_registry (hass st) !! k).
Proof.
  induction l as [|[k e] l IH]; intros st n Hnd Hin.
  - exists (entity_registry (hass st)). destruct st as [c [devs ents] cs].
    simpl. rewrite Nat.add_0_r, app_nil_r.
    split_and!; [done| |done]. intros ?? []%elem_of_nil.
  - rewrite fmap_cons in Hnd. apply NoDup_cons in Hnd as [Hk Hnd]. cbn [fst] in Hk.
    assert (Hke : entity_registry (hass st) !! k = Some e) by (apply Hin; left).
    rewrite for_each_cons, filter_cons. cbn [snd].
    destruct (Py.mentions old (er.name e)) eqn:Hm.
    + rewrite (rename_entity_hit new old n k e st Hm Hke).
      edestruct (IH {| self := self st;
                       hass := {| device_registry := device_registry (hass st);
                                  entity_registry :=
                                    <[k := er.set_name (new_name old new (er.name e)) e]>
                                      (entity_registry (hass st)) |};
                       calls := (calls st ++ [ErUpdateEntity k (new_name old new (er.name e))])%list |}
                    (S n) Hnd) as (ents' & Hrun & Hin' & Hout'); proj.
      { intros k' e' Hel. rewrite lookup_insert_ne; [apply Hin; by right|].
        intros ->. apply Hk. apply list_elem_of_fmap. by exists (k', e'). }
      exists ents'. rewrite Hrun. rewrite decide_True by done.
      split_and!.
      * f_equal; [f_equal; simpl; lia|]. f_equal. simpl.
        by rewrite <- app_assoc.
      * intros k' e' [[= -> ->] | Hel]%elem_of_cons.
        -- rewrite Hout' by done. rewrite lookup_insert_eq. by rewrite Hm.
        -- by apply Hin'.
      * intros k' Hk'. rewrite fmap_cons in Hk'.
        apply not_elem_of_cons in Hk' as [Hne Hk'].
        rewrite Hout' by done. by rewrite lookup_insert_ne.
    + rewrite (rename_entity_miss new old n k e st Hm).
      edestruct (IH st n Hnd) as (ents' & Hrun & Hin' & Hout').
      { intros k' e' Hel. apply Hin. by right. }
      exists ents'. rewrite Hrun. rewrite decide_False by congruence.
      split_and!; [done| |].
      * intros k' e' [[= -> ->] | Hel]%elem_of_cons.
        -- rewrite Hout' by done. by rewrite Hm.
        -- by apply Hin'.
      * intros k' Hk'. rewrite fmap_cons in Hk'.
        apply not_elem_of_cons in Hk' as [Hne Hk'].
        by rewrite Hout'.
Qed.

Lemma async_get_device_lookup (reg : gmap string dr.DeviceEntry) ids k d :
  dr.async_get_device reg ids = Some (k, d) → reg !! k = Some d.
Proof.
  unfold dr.async_get_device. intros H%head_Some_elem_of.
  apply list_elem_of_filter in H as [_ H]. by apply elem_of_map_to_list in H.
Qed.

(** The device half: at most one lookup and one update, never an exception,
    and the entity registry is not touched. *)
Lemma rename_device_run entry new old st :
  rename_device DOMAIN entry new old st =
    (Return tt,
     {| self := self st;
        hass :=
          {| device_registry :=
               match found_device DOMAIN (hass st) entry with
               | Some (k, d) =>
                   if Py.mentions old (dr.name d)
                   then <[k := dr.set_name (new_name old new (dr.name d)) d]>
                          (device_registry (hass st))
                   else device_registry (hass st)
               | None => device_registry (hass st)
               end;
             entity_registry := entity_registry (hass st) |};
        calls :=
          (calls st
           ++ (if Py.truthy (device_identifier entry)
               then [DrGetDevice {[ (DOMAIN, default "" (device_identifier entry)) ]}]
               else [])
           ++ match found_device DOMAIN (hass st) entry with
              | Some (k, d) =>
                  if Py.mentions old (dr.name d)
                  then [DrUpdateDevice k (new_name old new (dr.name d))]
                  else []
              | None => []
              end)%list |}).
Proof.
  destruct st as [c [devs ents] cs].
  unfold rename_device, found_device, dr_async_get_device, dr_async_update_device.
  proj. destruct (Py.truthy (device_identifier entry)); run_monad; proj.
  - destruct (dr.async_get_device devs _) as [[k d]|] eqn:E.
    + apply async_get_device_lookup in E.
      destruct (Py.mentions old (dr.name d)); proj.
      * rewrite E. proj. by rewrite <- app_assoc.
      * by rewrite app_nil_r.
    + by rewrite app_nil_r.
  - by rewrite !app_nil_r.
Qed.

Lemma entries_for_config_entry_spec (reg : gmap string er.RegistryEntry) id k e :
  (k, e) ∈ er.async_entries_for_config_entry reg id
  ↔ er.config_entry_id e = Some id ∧ reg !! k = Some e.
Proof.
  unfold er.async_entries_for_config_entry, er.belongs.
  rewrite list_elem_of_filter, elem_of_map_to_list. done.
Qed.

Lemma entries_for_config_entry_NoDup (reg : gmap string er.RegistryEntry) id :
  NoDup (er.async_entries_for_config_entry reg id).*1.
Proof.
  unfold er.async_entries_for_config_entry.
  apply (sublist_NoDup _ (map_to_list reg).*1); [apply NoDup_fst_map_to_list|].
  apply fmap_sublist, sublist_filter.
Qed.

(** The device registry after the propagation. *)
Abbreviation devices_after new old st entry :=
  (match found_device DOMAIN (hass st) entry with
   | Some (k, d) =>
       if Py.mentions old (dr.name d)
       then <[k := dr.set_name (new_name old new (dr.name d)) d]>
              (device_registry (hass st))
       else device_registry (hass st)
   | None => device_registry (hass st)
   end).

(** The calls the device half makes. *)
Abbreviation device_calls new old st entry :=
  ((if Py.truthy (device_identifier entry)
    then [DrGetDevice {[ (DOMAIN, default "" (device_identifier entry)) ]}]
    else [])
   ++ match found_device DOMAIN (hass st) entry with
      | Some (k, d) =>
          if Py.mentions old (dr.name d)
          then [DrUpdateDevice k (new_name old new (dr.name d))]
          else []
      | None => []
      end)%list.

(** The entities of the entry whose name mentions [old]. *)
Abbreviation hits old st entry :=
  (filter (entity_hits old)
     (er.async_entries_for_config_entry (entity_registry (hass st))
        (ConfigEntry.entry_id entry))).

(** [_update_entity_names] in full: the final state and the calls made. *)
Lemma update_entity_names_run new old st entry :
  config_entry (self st) = Some entry →
  ∃ ents',
    _update_entity_names DOMAIN new old st =
      (Return tt,
       {| self := self st;
          hass := {| device_registry := devices_after new old st entry;
                     entity_registry := ents' |};
          calls :=
            (calls st ++ device_calls new old st entry
             ++ [ErEntriesForConfigEntry (ConfigEntry.entry_id entry)]
             ++ (entity_update old new <$> hits old st entry)
             ++ (if bool_decide (0 < length (hits old st entry))
                 then [LogUpdatedCount (length (hits old st entry)) old new]
                 else []))%list |})
    ∧ (∀ k e, entity_registry (hass st) !! k = Some e →
         ents' !! k =
           Some (if bool_decide (er.config_entry_id e = Some (ConfigEntry.entry_id entry))
                    && Py.mentions old (er.name e)
                 then er.set_name (new_name old new (er.name e)) e
                 else e))
    ∧ (∀ k, entity_registry (hass st) !! k = None → ents' !! k = None).
Proof.
  intros Hce.
  pose (st1 := (rename_device DOMAIN entry new old st).2).
  pose (st2 := {| self := self st1; hass := hass st1;
                  calls := (calls st1 ++
                            [ErEntriesForConfigEntry (ConfigEntry.entry_id entry)])%list |}).
  destruct (rename_loop new old
              (er.async_entries_for_config_entry (entity_registry (hass st))
                 (ConfigEntry.entry_id entry)) st2 0)
    as (ents' & Hrun & Hin & Hout).
  { apply entries_for_config_entry_NoDup. }
  { intros k e [_ Hk]%entries_for_config_entry_spec.
    subst st2 st1. rewrite rename_device_run. by proj. }
  exists ents'. split_and!.
  - unfold _update_entity_names, er_async_entries_for_config_entry.
    run_monad. rewrite Hce. fold st1.
    assert (Hd : rename_device DOMAIN entry new old st = (Return tt, st1)).
    { subst st1. by rewrite rename_device_run. }
    rewrite Hd. proj.
    assert (He : entity_registry (hass st1) = entity_registry (hass st)).
    { subst st1. rewrite rename_device_run. by proj. }
    rewrite He. fold st2. rewrite Hrun. rewrite Nat.add_0_l.
    subst st2 st1. rewrite rename_device_run. proj.
    destruct (bool_decide _); cbv beta; proj; do 2 f_equal;
      rewrite ?app_nil_r; rewrite <- ?app_assoc; reflexivity.
  - intros k e Hk.
    destruct (bool_decide_reflect
                (er.config_entry_id e = Some (ConfigEntry.entry_id entry))) as [Hb|Hb];
      cbn [andb].
    + apply Hin. by apply entries_for_config_entry_spec.
    + rewrite Hout.
      * subst st2 st1. rewrite rename_device_run. by proj.
      * intros ([k' e'] & -> & [Hb' Hk']%entries_for_config_entry_spec)%list_elem_of_fmap.
        cbn [fst] in Hk. congruence.
  - intros k Hk. rewrite Hout.
    + subst st2 st1. rewrite rename_device_run. by proj.
    + intros ([k' e'] & -> & [Hb' Hk']%entries_for_config_entry_spec)%list_elem_of_fmap.
      cbn [fst] in Hk. congruence.
Qed.

(** The listener when the host it is told equals the stored address. *)
Lemma config_entry_updated_same entry st :
  default (_initial_device_ip (self st)) (ConfigEntry.data entry !! CONF_HOST)
    = _initial_device_ip (self st) →
  _async_config_entry_updated DOMAIN entry st = (Return tt, st).
Proof.
  intros Hsame. unfold _async_config_entry_updated. run_monad.
  destruct (config_entry (self st)); [|done].
  by rewrite Hsame, bool_decide_false by (intros H; by apply H).
Qed.

(** The listener when the host differs: the propagation runs on the state as
    it is, then [_initial_device_ip] is assigned. *)
Lemma config_entry_updated_changed entry st ce :
  config_entry (self st) = Some ce →
  default (_initial_device_ip (self st)) (ConfigEntry.data entry !! CONF_HOST)
    ≠ _initial_device_ip (self st) →
  _async_config_entry_updated DOMAIN entry st =
    (_update_entity_names DOMAIN
       (default (_initial_device_ip (self st)) (ConfigEntry.data entry !! CONF_HOST))
       (_initial_device_ip (self st)) ;;
     set__initial_device_ip
       (default (_initial_device_ip (self st)) (ConfigEntry.data entry !! CONF_HOST)))
    st.
Proof.
  intros Hce Hne. unfold _async_config_entry_updated. run_monad. rewrite Hce.
  by rewrite bool_decide_true by done.
Qed.

Lemma reported_count_app cs1 cs2 :
  reported_count (cs1 ++ cs2) = reported_count cs1 + reported_count cs2.
Proof.
  induction cs1 as [|c cs1 IH]; [done|]. destruct c; simpl; rewrite IH; lia.
Qed.





Lemma mentions_intro old n :
  n ≠ "" → Py.contains old n = true → Py.mentions old (Some n) = true.
Proof. intros Hn Hc. unfold Py.mentions. simpl. rewrite Hc. by destruct n. Qed.



(** C7: a notification whose host is the stored address does nothing: the
    whole state - coordinator, both registries and the list of calls made -
    is the one before, so no registry call was made. *)
Theorem rebind_same_address_noop entry st :
  ConfigEntry.data entry !! CONF_HOST = Some (_initial_device_ip (self st)) →
  _async_config_entry_updated DOMAIN entry st = (Return tt, st).
Proof.
  intros Hhost. apply config_entry_updated_same. by rewrite Hhost.
Qed.

(** The listener after a change of host, in full. *)
Lemma config_entry_updated_run entry st ce new :
  config_entry (self st) = Some ce →
  ConfigEntry.data entry !! CONF_HOST = Some new →
  new ≠ _initial_device_ip (self st) →
  ∃ r, _update_entity_names DOMAIN new (_initial_device_ip (self st)) st = (Return tt, r)
    ∧ self r = self st
    ∧ _async_config_entry_updated DOMAIN entry st =
        (Return tt,
         {| self := {| udp_client := udp_client (self st);
                       config_entry := config_entry (self st);
                       _initial_device_ip := new;
                       _last_pv_fetch := _last_pv_fetch (self st);
                       _last_slow_fetch := _last_slow_fetch (self st);
                       data := data (self st) |};
            hass := hass r;
            calls := calls r |}).
Proof.
  intros Hce Hhost Hne.
  destruct (update_entity_names_run new (_initial_device_ip (self st)) st ce Hce)
    as (ents' & Hrun & _ & _).
  eexists. split; [exact Hrun|]. split; [done|].
  rewrite (config_entry_updated_changed entry st ce Hce) by (by rewrite Hhost).
  rewrite Hhost. cbn [from_option id]. unfold set__initial_device_ip. run_monad.
  rewrite Hrun. by proj.
Qed.

(** C8: when the entry has no usable MAC or the device registry has no
    device for it, the listener still returns normally: the device registry
    is as before and no device update was called, the entities of the entry
    are renamed as usual, and the stored address becomes the new one. *)
Theorem rebind_without_device entry st ce new :
  config_entry (self st) = Some ce →
  ConfigEntry.data entry !! CONF_HOST = Some new →
  new ≠ _initial_device_ip (self st) →
  found_device DOMAIN (hass st) ce = None →
  let old := _initial_device_ip (self st) in
  let r := _async_config_entry_updated DOMAIN entry st in
  r.1 = Return tt
  ∧ device_registry (hass r.2) = device_registry (hass st)
  ∧ (∀ k n, DrUpdateDevice k n ∈ calls r.2 → DrUpdateDevice k n ∈ calls st)
  ∧ (∀ k e n, entity_registry (hass st) !! k = Some e →
       er.config_entry_id e = Some (ConfigEntry.entry_id ce) →
       er.name e = Some n → n ≠ "" → Py.contains old n = true →
       entity_registry (hass r.2) !! k = Some (er.set_name (Py.replace old new n) e))
  ∧ (∀ k e, entity_registry (hass st) !! k = Some e →
       er.config_entry_id e ≠ Some (ConfigEntry.entry_id ce)
       ∨ Py.mentions old (er.name e) = false →
       entity_registry (hass r.2) !! k = Some e)
  ∧ _initial_device_ip (self r.2) = new.
Proof.
  intros Hce Hhost Hne Hnone old r.
  destruct (config_entry_updated_run entry st ce new Hce Hhost Hne)
    as (r' & Hnames & _ & Hrun).
  destruct (update_entity_names_run new old st ce Hce) as (ents' & Hrun' & Hin & _).
  subst old. rewrite Hnames in Hrun'. injection Hrun' as ->.
  subst r. rewrite Hrun. proj. rewrite Hnone. split_and!; try done.
  - intros k n. rewrite !elem_of_app, elem_of_cons, elem_of_app.
    intros [? | [[Hd | []%elem_of_nil] | [He | [Hu | Hl]]]]; [done| | | |].
    + destruct (Py.truthy _); [|by apply elem_of_nil in Hd].
      by apply list_elem_of_singleton in Hd.
    + done.
    + by apply list_elem_of_fmap in Hu as (? & ? & _).
    + case_bool_decide; [|by apply elem_of_nil in Hl].
      by apply list_elem_of_singleton in Hl.
  - intros k e n Hk Hid Hn Hnn Hc. rewrite (Hin k e Hk).
    rewrite bool_decide_true by done. rewrite Hn.
    by rewrite (mentions_intro _ n Hnn Hc).
  - intros k e Hk [Hid | Hm]; rewrite (Hin k e Hk).
    + by rewrite bool_decide_false by done.
    + rewrite Hm. by rewrite andb_false_r.
Qed.

(** One change of the entry's data, as the host delivers it. *)
Lemma async_update_entry_spec new_data st entry0 host :
  config_entry (self st) = Some entry0 →
  new_data !! CONF_HOST = Some host →
  let r := async_update_entry DOMAIN new_data st in
  (host ≠ _initial_device_ip (self st) →
     r = (_update_entity_names DOMAIN host (_initial_device_ip (self st)) ;;
          set__initial_device_ip host) (set_entry_data new_data st).2)
  ∧ (host = _initial_device_ip (self st) →
     r = (Return tt, (set_entry_data new_data st).2))
  ∧ r.1 = Return tt
  ∧ config_entry (self r.2)
    = Some (ConfigEntry.mk (ConfigEntry.entry_id entry0) new_data)
  ∧ _initial_device_ip (self r.2) = host.
Proof.
  intros Hce Hhost r.
  set (entry := ConfigEntry.mk (ConfigEntry.entry_id entry0) new_data).
  set (st_d := (set_entry_data new_data st).2).
  assert (Hce_d : config_entry (self st_d) = Some entry).
  { subst st_d. unfold set_entry_data. run_monad. proj. by rewrite Hce. }
  assert (Hip_d : _initial_device_ip (self st_d) = _initial_device_ip (self st)).
  { subst st_d. unfold set_entry_data. run_monad. by proj. }
  assert (Hr : r = _async_config_entry_updated DOMAIN entry st_d).
  { subst r st_d. unfold async_update_entry, set_entry_data. run_monad. proj.
    by rewrite Hce. }
  destruct (decide (host = _initial_device_ip (self st))) as [Heq | Hne].
  - assert (Hsame : r = (Return tt, st_d)).
    { rewrite Hr. apply config_entry_updated_same.
      subst entry. cbn [ConfigEntry.data]. rewrite Hhost, Hip_d. by cbn. }
    rewrite Hsame. proj. split_and!; try done; try by rewrite Hip_d.
  - assert (Hne_d : host ≠ _initial_device_ip (self st_d)) by (by rewrite Hip_d).
    destruct (config_entry_updated_run entry st_d entry host Hce_d Hhost Hne_d)
      as (r' & Hnames & Hself & Hrun).
    rewrite Hr, Hrun. proj. split_and!; try done.
    intros _. rewrite (config_entry_updated_changed entry st_d entry Hce_d) in Hrun.
    + rewrite <- Hrun. subst entry. cbn [ConfigEntry.data].
      rewrite Hhost, Hip_d. by cbn.
    + subst entry. cbn [ConfigEntry.data]. rewrite Hhost. by cbn.
Qed.

(** C9: [_initial_device_ip] is assigned only by a notification whose host
    differs from it, after the propagation from the stored address to the
    new host has run; after every notification it is the host of the entry
    (and so is [device_ip]).  Hence the next change of host renames from the
    address bound last, and a notification that repeats the host makes no
    registry call. *)
Theorem initial_device_ip_follows_host st entry0 d1 b :
  config_entry (self st) = Some entry0 →
  d1 !! CONF_HOST = Some b →
  let old := _initial_device_ip (self st) in
  let r1 := async_update_entry DOMAIN d1 st in
  (b ≠ old →
     r1 = (_update_entity_names DOMAIN b old ;; set__initial_device_ip b)
            (set_entry_data d1 st).2)
  ∧ (b = old → r1 = (Return tt, (set_entry_data d1 st).2))
  ∧ r1.1 = Return tt
  ∧ _initial_device_ip (self r1.2) = b
  ∧ device_ip (self r1.2) = b
  ∧ (∀ d2 c, d2 !! CONF_HOST = Some c → c ≠ b →
       async_update_entry DOMAIN d2 r1.2 =
         (_update_entity_names DOMAIN c b ;; set__initial_device_ip c)
           (set_entry_data d2 r1.2).2)
  ∧ (∀ d2, d2 !! CONF_HOST = Some b →
       async_update_entry DOMAIN d2 r1.2 = (Return tt, (set_entry_data d2 r1.2).2)
       ∧ hass (set_entry_data d2 r1.2).2 = hass r1.2
       ∧ calls (set_entry_data d2 r1.2).2 = calls r1.2).
Proof.
  intros Hce Hhost old r1.
  destruct (async_update_entry_spec d1 st entry0 b Hce Hhost)
    as (Hchg & Hsame & Hret & Hce1 & Hip1).
  fold r1 in Hchg, Hsame, Hret, Hce1, Hip1.
  split_and!; try done.
  - unfold device_ip. rewrite Hce1. cbn [ConfigEntry.data]. by rewrite Hhost.
  - intros d2 c Hc Hne.
    destruct (async_update_entry_spec d2 r1.2 _ c Hce1 Hc) as (Hchg2 & _).
    rewrite Hip1 in Hchg2. by apply Hchg2.
  - intros d2 Hb.
    destruct (async_update_entry_spec d2 r1.2 _ b Hce1 Hb) as (_ & Hsame2 & _).
    split; [by apply Hsame2|]. unfold set_entry_data. run_monad. by proj.
Qed.

End Rebind.

(** ** The statements at the concrete installation *)

Lemma poll_tier_flags_witness :
  is_polling_paused (udp_client (self (Demo.fresh (Demo.client (Return Demo.good_status)))))
    (device_ip (self (Demo.fresh (Demo.client (Return Demo.good_status))))) = false
  ∧ ∃ req,
      calls (_async_update_data Demo.udp_port 1000
               (Demo.fresh (Demo.client (Return Demo.good_status)))).2
      = [GetDeviceStatus req]
      ∧ include_em req = true.
Proof.
  split; [reflexivity|].
  destruct (poll_tier_flags Demo.udp_port 1000
              (Demo.fresh (Demo.client (Return Demo.good_status))) eq_refl)
    as (req & Hc & _ & Hem & _).
  exists req. split; [exact Hc | exact Hem].
Defined.

Lemma poll_unknown_mode_fails_witness :
  (_async_update_data Demo.udp_port 1000
     (Demo.fresh (Demo.client (Return Demo.unknown_status)))).1
  = Raise (Py.UpdateFailed "Polling failed for 10.0.0.1"
             (Py.TimeoutError "No valid data received from device at 10.0.0.1")).
Proof.
  refine (proj1 (proj2 (poll_unknown_mode_fails Demo.udp_port 1000
            (Demo.fresh (Demo.client (Return Demo.unknown_status)))
            Demo.first_request Demo.unknown_status _ _ _ _))).
  - reflexivity.
  - vm_compute. reflexivity.
  - reflexivity.
  - left. vm_compute. reflexivity.
Defined.

Lemma poll_paused_noop_witness :
  _async_update_data Demo.udp_port 1000 (Demo.fresh Demo.paused_client)
  = (Return ∅, Demo.fresh Demo.paused_client).
Proof.
  apply (poll_paused_noop Demo.udp_port 1000 (Demo.fresh Demo.paused_client)).
  reflexivity.
Defined.

Lemma poll_paused_no_record_witness :
  (_async_update_data Demo.udp_port 1000 (Demo.fresh Demo.paused_client)).1 = Return ∅.
Proof.
  apply (poll_paused_no_record Demo.udp_port 1000 (Demo.fresh Demo.paused_client));
    reflexivity.
Defined.

Lemma poll_wraps_caught_errors_witness :
  (_async_update_data Demo.udp_port 1000
     (Demo.fresh (Demo.client (Raise (Py.TimeoutError "timed out"))))).1
  = Raise (Py.UpdateFailed "Polling failed for 10.0.0.1" (Py.TimeoutError "timed out")).
Proof.
  refine (proj1 (poll_wraps_caught_errors Demo.udp_port 1000
            (Demo.fresh (Demo.client (Raise (Py.TimeoutError "timed out"))))
            Demo.first_request _ _) (Py.TimeoutError "timed out") _ _).
  - reflexivity.
  - vm_compute. reflexivity.
  - reflexivity.
  - exists "timed out". by left.
Defined.

(** C5 as stated fails: the client raises a [KeyError], which is none of the
    classes of the [except] clause; the poll ends in that [KeyError], which
    is neither a record nor [UpdateFailed]. *)
Lemma poll_uncaught_error_escapes :
  (_async_update_data Demo.udp_port 1000
     (Demo.fresh (Demo.client (Raise (Py.KeyError "result"))))).1
  = Raise (Py.KeyError "result")
  ∧ ¬ ((∃ r, (_async_update_data Demo.udp_port 1000
                (Demo.fresh (Demo.client (Raise (Py.KeyError "result"))))).1
             = Return r)
       ∨ (∃ msg cause,
            (_async_update_data Demo.udp_port 1000
               (Demo.fresh (Demo.client (Raise (Py.KeyError "result"))))).1
            = Raise (Py.UpdateFailed msg cause))).
Proof.
  assert (H : (_async_update_data Demo.udp_port 1000
                 (Demo.fresh (Demo.client (Raise (Py.KeyError "result"))))).1
              = Raise (Py.KeyError "result")) by (vm_compute; reflexivity).
  split; [exact H|]. rewrite H. intros [[r Hr] | (msg & cause & Hr)]; discriminate.
Qed.



Lemma rebind_same_address_noop_witness :
  _async_config_entry_updated "marstek" (Demo.entry "10.0.0.1")
    (Demo.fresh Demo.paused_client)
  = (Return tt, Demo.fresh Demo.paused_client).
Proof.
  apply (rebind_same_address_noop "marstek" (Demo.entry "10.0.0.1")
           (Demo.fresh Demo.paused_client)).
  vm_compute. reflexivity.
Defined.

Lemma rebind_without_device_witness :
  (_async_config_entry_updated "marstek"
     (ConfigEntry.mk "entry1" {[ "host" := "10.0.0.2" ]})
     (Demo.fresh_no_mac Demo.paused_client)).1 = Return tt.
Proof.
  refine (proj1 (rebind_without_device "marstek"
            (ConfigEntry.mk "entry1" {[ "host" := "10.0.0.2" ]})
            (Demo.fresh_no_mac Demo.paused_client)
            (ConfigEntry.mk "entry1" {[ "host" := "10.0.0.1" ]}) "10.0.0.2" _ _ _ _)).
  - reflexivity.
  - vm_compute. reflexivity.
  - discriminate.
  - vm_compute. reflexivity.
Defined.

Lemma initial_device_ip_follows_host_witness :
  _initial_device_ip
    (self (async_update_entry "marstek"
             {[ "host" := "10.0.0.2"; "mac" := "aabbccddeeff" ]}
             (Demo.fresh Demo.paused_client)).2)
  = "10.0.0.2".
Proof.
  refine (proj1 (proj2 (proj2 (proj2
            (initial_device_ip_follows_host "marstek" (Demo.fresh Demo.paused_client)
               (Demo.entry "10.0.0.1")
               {[ "host" := "10.0.0.2"; "mac" := "aabbccddeeff" ]} "10.0.0.2" _ _))))).
  - reflexivity.
  - vm_compute. reflexivity.
Defined.

(** * Further properties of the poll *)

Lemma leb_sub_zero (a x : float) : (a <=? x - 0)%float = (a <=? x)%float.
Proof.
  rewrite !leb_spec, sub_spec.
  change (Prim2SF 0) with (S754_zero false).
  unfold SF64sub. destruct (Prim2SF x) as [[]|[]| |]; reflexivity.
Qed.

Lemma ne_str_true v s : Py.ne_str v s = true ↔ v ≠ Py.VStr s.
Proof.
  destruct v; simpl; try (split; [discriminate|done]).
  case_bool_decide; simpl; split; try done; congruence.
Qed.

Section PollMore.

Variable DEFAULT_UDP_PORT : Z.

Abbreviation poll := (_async_update_data DEFAULT_UDP_PORT).

Abbreviation paused st :=
  (is_polling_paused (udp_client (self st)) (device_ip (self st))).

(** No poll assigns the client either. *)
Lemma poll_keeps_client now st :
  udp_client (self (poll now st).2) = udp_client (self st).
Proof.
  destruct st as [[cl ce ip pv slow d] h cs]. unfold_poll. proj.
  destruct (is_polling_paused cl _); [done|]. cbv beta. proj.
  destruct (get_device_status cl _) as [r|e]; proj.
  - repeat match goal with |- context [if ?b then _ else _] => destruct b; proj end;
      done.
  - by destruct (polling_errors e).
Qed.

(** The one call of a poll that is not paused, spelled out. *)
Lemma poll_request now st :
  paused st = false →
  calls (poll now st).2 =
    (calls st ++
     [GetDeviceStatus
        {| address := device_ip (self st);
           port := DEFAULT_UDP_PORT;
           timeout := 10;
           include_pv := (60 <=? now - _last_pv_fetch (self st))%float;
           include_wifi := (300 <=? now - _last_slow_fetch (self st))%float;
           include_em := true;
           include_bat := (300 <=? now - _last_slow_fetch (self st))%float;
           delay_between_requests := 10;
           previous_status := data (self st) |}])%list.
Proof.
  intros Hp. destruct st as [[cl ce ip pv slow d] h cs]. proj.
  unfold_poll. proj. rewrite Hp. cbv beta. proj.
  unfold MEDIUM_POLL_INTERVAL, SLOW_POLL_INTERVAL.
  destruct (get_device_status cl _) as [r|e]; proj.
  - repeat match goal with |- context [if ?b then _ else _] => destruct b; proj end;
      reflexivity.
  - destruct (polling_errors e); reflexivity.
Qed.

(** The poll is a pure reader of everything but the two tier timestamps and
    the call log: [self.data], the config entry, the stored address, the
    client and both registries are the same after any poll, whatever its
    outcome. *)
Theorem poll_frame now st :
  data (self (poll now st).2) = data (self st)
  ∧ config_entry (self (poll now st).2) = config_entry (self st)
  ∧ _initial_device_ip (self (poll now st).2) = _initial_device_ip (self st)
  ∧ udp_client (self (poll now st).2) = udp_client (self st)
  ∧ hass (poll now st).2 = hass st
  ∧ device_ip (self (poll now st).2) = device_ip (self st).
Proof.
  destruct (poll_keeps_data DEFAULT_UDP_PORT now st) as (Hd & Hce & Hip & Hh).
  split_and!; try done; [apply poll_keeps_client|].
  unfold device_ip. by rewrite Hce, Hip.
Qed.

(** An error of the fetch outside the three caught classes (a [KeyError],
    say) leaves the poll as it is, unwrapped, and moves no timestamp. *)
Theorem poll_other_error_propagates now st req e :
  paused st = false →
  calls (_async_update_data DEFAULT_UDP_PORT now st).2
  = (calls st ++ [GetDeviceStatus req])%list →
  get_device_status (udp_client (self st)) req = Raise e →
  (∀ msg, e ≠ Py.TimeoutError msg ∧ e ≠ Py.OSError msg ∧ e ≠ Py.ValueError msg) →
  (_async_update_data DEFAULT_UDP_PORT now st).1 = Raise e
  ∧ _last_pv_fetch (self (_async_update_data DEFAULT_UDP_PORT now st).2) = _last_pv_fetch (self st)
  ∧ _last_slow_fetch (self (_async_update_data DEFAULT_UDP_PORT now st).2) = _last_slow_fetch (self st).
Proof.
  intros Hp Hc He Hcls.
  destruct (poll_fetch_raises_frame DEFAULT_UDP_PORT now st req e Hp Hc He)
    as (Ho & Hpv & Hslow).
  split_and!; try done. rewrite Ho.
  destruct e as [m|m|m|m|m c|c m]; simpl; try done;
    destruct (Hcls m) as (? & ? & ?); done.
Qed.

(** A fetched record whose [device_mode] is present and is anything but the
    string "Unknown" - another string, or a value that is no string at all,
    [None] included - is returned as it came from the client. *)
Theorem poll_valid_record_returned now st req d v :
  paused st = false →
  calls (_async_update_data DEFAULT_UDP_PORT now st).2
  = (calls st ++ [GetDeviceStatus req])%list →
  get_device_status (udp_client (self st)) req = Return d →
  d !! "device_mode" = Some v →
  v ≠ Py.VStr "Unknown" →
  (_async_update_data DEFAULT_UDP_PORT now st).1 = Return d.
Proof.
  intros Hp Hc Hf Hm Hv.
  destruct (poll_fetch_returns DEFAULT_UDP_PORT now st req d Hp Hc Hf) as (Ho & _).
  rewrite Ho, Hm. cbn [default from_option id].
  by rewrite (proj2 (ne_str_true v "Unknown") Hv).
Qed.

(** A tier timestamp never takes a value other than the clock reading of the
    poll: after any poll it is the old value or [now], and it is [now]
    whenever the poll was not paused, the tier was due and the fetch
    returned (with whatever record). *)
Theorem poll_timestamps_old_or_now now st :
  (_last_pv_fetch (self (_async_update_data DEFAULT_UDP_PORT now st).2) = _last_pv_fetch (self st)
   ∨ _last_pv_fetch (self (_async_update_data DEFAULT_UDP_PORT now st).2) = now)
  ∧ (_last_slow_fetch (self (_async_update_data DEFAULT_UDP_PORT now st).2) = _last_slow_fetch (self st)
     ∨ _last_slow_fetch (self (_async_update_data DEFAULT_UDP_PORT now st).2) = now)
  ∧ (∀ req d,
       paused st = false →
       calls (_async_update_data DEFAULT_UDP_PORT now st).2
  = (calls st ++ [GetDeviceStatus req])%list →
       get_device_status (udp_client (self st)) req = Return d →
       ((60 <=? now - _last_pv_fetch (self st))%float = true →
          _last_pv_fetch (self (_async_update_data DEFAULT_UDP_PORT now st).2) = now)
       ∧ ((300 <=? now - _last_slow_fetch (self st))%float = true →
          _last_slow_fetch (self (_async_update_data DEFAULT_UDP_PORT now st).2) = now)).
Proof.
  assert (Hcases :
    paused st = false → ∀ req,
    calls (poll now st).2 = (calls st ++ [GetDeviceStatus req])%list →
    include_pv req = (60 <=? now - _last_pv_fetch (self st))%float
    ∧ include_wifi req = (300 <=? now - _last_slow_fetch (self st))%float).
  { intros Hp req Hc. rewrite (poll_request now st Hp) in Hc.
    apply app_inv_head in Hc. by injection Hc as <-. }
  destruct (paused st) eqn:Hp.
  { rewrite (poll_paused_run DEFAULT_UDP_PORT now st Hp). proj.
    split_and!; [by left | by left | done]. }
  destruct (poll_fetches_once DEFAULT_UDP_PORT now st Hp) as (req & Hc).
  destruct (Hcases eq_refl req Hc) as (Hipv & Hiw).
  destruct (get_device_status (udp_client (self st)) req) as [d|e] eqn:Hf.
  - destruct (poll_fetch_returns DEFAULT_UDP_PORT now st req d Hp Hc Hf)
      as (_ & Hpv & Hslow).
    split_and!.
    + rewrite Hpv. destruct (include_pv req); [by right | by left].
    + rewrite Hslow. destruct (include_wifi req); [by right | by left].
    + intros req' d' _ Hc' _.
      rewrite Hc in Hc'. apply app_inv_head in Hc'. injection Hc' as <-.
      rewrite Hpv, Hslow, Hipv, Hiw. by split; intros ->.
  - destruct (poll_fetch_raises_frame DEFAULT_UDP_PORT now st req e Hp Hc Hf)
      as (_ & Hpv & Hslow).
    split_and!; [by left | by left |].
    intros req' d' _ Hc' Hf'.
    rewrite Hc in Hc'. apply app_inv_head in Hc'. injection Hc' as <-.
    congruence.
Qed.

(** Cadence across two polls.  Let a poll request some tiers and its fetch
    return (with whatever record), and let the client be in any condition
    when the next poll starts.  If the client then reports the address
    paused, that poll changes nothing and makes no request.  Otherwise it
    makes one request, which asks for a tier the first poll requested
    exactly when its own clock reading is at least the interval past the
    clock reading of the first poll, and for a tier the first poll skipped
    exactly when it is the interval past the old timestamp. *)
Theorem poll_cadence_from_last_fetch now1 now2 st req1 d client2 :
  paused st = false →
  calls (_async_update_data DEFAULT_UDP_PORT now1 st).2
  = (calls st ++ [GetDeviceStatus req1])%list →
  get_device_status (udp_client (self st)) req1 = Return d →
  let st1 := with_client client2 (_async_update_data DEFAULT_UDP_PORT now1 st).2 in
  (is_polling_paused client2 (device_ip (self st)) = true →
     (_async_update_data DEFAULT_UDP_PORT now2 st1).2 = st1
     ∧ calls st1 = (calls st ++ [GetDeviceStatus req1])%list)
  ∧ (is_polling_paused client2 (device_ip (self st)) = false →
     ∃ req2,
       calls (_async_update_data DEFAULT_UDP_PORT now2 st1).2
       = (calls st ++ [GetDeviceStatus req1; GetDeviceStatus req2])%list
       ∧ (include_pv req1 = true →
            (include_pv req2 = true ↔ (60 <=? now2 - now1)%float = true))
       ∧ (include_wifi req1 = true →
            (include_wifi req2 = true ↔ (300 <=? now2 - now1)%float = true))
       ∧ (include_pv req1 = false →
            (include_pv req2 = true
             ↔ (60 <=? now2 - _last_pv_fetch (self st))%float = true))
       ∧ (include_wifi req1 = false →
            (include_wifi req2 = true
             ↔ (300 <=? now2 - _last_slow_fetch (self st))%float = true))).
Proof.
  intros Hp Hc Hf st1.
  destruct (poll_fetch_returns DEFAULT_UDP_PORT now1 st req1 d Hp Hc Hf)
    as (_ & Hpv & Hslow).
  destruct (poll_keeps_data DEFAULT_UDP_PORT now1 st) as (_ & Hce & Hip & _).
  assert (Hdev : device_ip (self st1) = device_ip (self st)).
  { subst st1. unfold with_client, device_ip. proj. by rewrite Hce, Hip. }
  assert (Hcl : udp_client (self st1) = client2) by done.
  assert (Hc1 : calls st1 = (calls st ++ [GetDeviceStatus req1])%list) by done.
  assert (Hpv1 : _last_pv_fetch (self st1)
                 = if include_pv req1 then now1 else _last_pv_fetch (self st)) by done.
  assert (Hslow1 : _last_slow_fetch (self st1)
                   = if include_wifi req1 then now1 else _last_slow_fetch (self st))
    by done.
  clearbody st1. split.
  - intros Hp2. split; [|done].
    rewrite (poll_paused_run DEFAULT_UDP_PORT now2 st1); [done|].
    by rewrite Hcl, Hdev.
  - intros Hp2.
    assert (Hp1 : paused st1 = false) by (by rewrite Hcl, Hdev).
    eexists. rewrite (poll_request now2 st1 Hp1), Hc1, <- app_assoc.
    split; [reflexivity|]. cbn [include_pv include_wifi].
    rewrite Hpv1, Hslow1.
    split_and!; intros Hflag; rewrite Hflag; done.
Qed.

(** The poll is addressed to the host of the config entry, not to the
    address the coordinator was built with, and the pause is asked for that
    host; the request carries the stored record as [previous_status], the
    port constant and the 10 s timeout and spacing. *)
Theorem poll_targets_entry_host now st entry host :
  config_entry (self st) = Some entry →
  ConfigEntry.data entry !! CONF_HOST = Some host →
  is_polling_paused (udp_client (self st)) host = false →
  ∃ req,
    calls (poll now st).2 = (calls st ++ [GetDeviceStatus req])%list
    ∧ address req = host
    ∧ port req = DEFAULT_UDP_PORT
    ∧ timeout req = 10%float
    ∧ delay_between_requests req = 10%float
    ∧ previous_status req = data (self st).
Proof.
  intros Hce Hhost Hp.
  assert (Hip : device_ip (self st) = host).
  { unfold device_ip. by rewrite Hce, Hhost. }
  rewrite <- Hip in Hp. eexists. split; [apply (poll_request now st Hp)|].
  by cbn.
Qed.

(** The first poll of a newly built coordinator measures from [0.0]: it
    requests the PV tier only if the monotonic clock itself reads at least
    60, and WiFi and battery detail only if it reads at least 300; and it
    passes no previous record. *)
Theorem first_poll_tiers now entry client ip h cs :
  let st := {| self := __init__ entry client ip; hass := h; calls := cs |} in
  paused st = false →
  ∃ req,
    calls (poll now st).2 = (cs ++ [GetDeviceStatus req])%list
    ∧ include_em req = true
    ∧ (include_pv req = true ↔ (60 <=? now)%float = true)
    ∧ (include_wifi req = true ↔ (300 <=? now)%float = true)
    ∧ (include_bat req = true ↔ (300 <=? now)%float = true)
    ∧ previous_status req = None.
Proof.
  intros st Hp. eexists. split; [apply (poll_request now st Hp)|].
  subst st. unfold __init__. proj. cbn [include_em include_pv include_wifi
    include_bat previous_status]. by rewrite !leb_sub_zero.
Qed.

End PollMore.

(** * Further properties of the rename propagation and the listener *)

Section RebindMore.

Variable DOMAIN : string.

Implicit Types new old : string.

Lemma filter_none {A} (P : A → Prop) `{!∀ x, Decision (P x)} (l : list A) :
  (∀ x, x ∈ l → ¬ P x) → filter P l = [].
Proof.
  induction l as [|x l IH]; intros Hno; [done|].
  rewrite filter_cons, decide_False by (apply Hno; left).
  apply IH. intros y Hy. apply Hno. by right.
Qed.

Lemma update_entity_names_no_entry new old st :
  config_entry (self st) = None →
  _update_entity_names DOMAIN new old st = (Return tt, st).
Proof. intros Hce. unfold _update_entity_names. run_monad. by rewrite Hce. Qed.

(** The propagation always completes - every update it issues goes to an id
    it has just read from the registry, so no [KeyError] - and it never
    touches the coordinator, never adds or removes a registry record, and
    never changes which config entry an entity belongs to or which
    identifiers a device has. *)
Theorem update_entity_names_total new old st :
  let r := _update_entity_names DOMAIN new old st in
  r.1 = Return tt
  ∧ self r.2 = self st
  ∧ dom (entity_registry (hass r.2)) = dom (entity_registry (hass st))
  ∧ dom (device_registry (hass r.2)) = dom (device_registry (hass st))
  ∧ (∀ k e, entity_registry (hass st) !! k = Some e →
       ∃ e', entity_registry (hass r.2) !! k = Some e'
             ∧ er.config_entry_id e' = er.config_entry_id e)
  ∧ (∀ k d, device_registry (hass st) !! k = Some d →
       ∃ d', device_registry (hass r.2) !! k = Some d'
             ∧ dr.identifiers d' = dr.identifiers d).
Proof.
  intros r. subst r. destruct (config_entry (self st)) as [entry|] eqn:Hce.
  2: { rewrite update_entity_names_no_entry by done. proj.
       split_and!; try done; eauto. }
  destruct (update_entity_names_run DOMAIN new old st entry Hce)
    as (ents' & Hrun & Hin & Hout).
  rewrite Hrun. proj.
  assert (Hdev : ∀ k d, device_registry (hass st) !! k = Some d →
            ∃ d', (match found_device DOMAIN (hass st) entry with
                   | Some (k0, d0) =>
                       if Py.mentions old (dr.name d0)
                       then <[k0 := dr.set_name
                                      (Py.replace old new (default "" (dr.name d0))) d0]>
                              (device_registry (hass st))
                       else device_registry (hass st)
                   | None => device_registry (hass st)
                   end) !! k = Some d'
                  ∧ dr.identifiers d' = dr.identifiers d).
  { intros k d Hk.
    destruct (found_device DOMAIN (hass st) entry) as [[k0 d0]|] eqn:Hf; [|eauto].
    destruct (Py.mentions old (dr.name d0)); [|eauto].
    assert (Hk0 : device_registry (hass st) !! k0 = Some d0).
    { unfold found_device in Hf. destruct (Py.truthy _); [|done].
      by apply async_get_device_lookup in Hf. }
    destruct (decide (k0 = k)) as [-> | Hne].
    - rewrite lookup_insert_eq. eexists. split; [done|]. simpl. congruence.
    - rewrite lookup_insert_ne by done. eauto. }
  split_and!; try done.
  - apply set_eq. intros k. rewrite !elem_of_dom.
    destruct (entity_registry (hass st) !! k) as [e|] eqn:Hk.
    + rewrite (Hin k e Hk). split; eauto.
    + rewrite (Hout k Hk). done.
  - apply set_eq. intros k. rewrite !elem_of_dom. split.
    + intros [d' Hd'].
      destruct (device_registry (hass st) !! k) as [d|] eqn:Hk; [eauto|].
      exfalso. revert Hd'.
      destruct (found_device DOMAIN (hass st) entry) as [[k0 d0]|] eqn:Hf;
        [|congruence].
      destruct (Py.mentions old (dr.name d0)); [|congruence].
      assert (Hk0 : device_registry (hass st) !! k0 = Some d0).
      { unfold found_device in Hf. destruct (Py.truthy _); [|done].
        by apply async_get_device_lookup in Hf. }
      destruct (decide (k0 = k)) as [-> | Hne]; [congruence|].
      rewrite lookup_insert_ne by done. congruence.
    + intros [d Hk]. destruct (Hdev k d Hk) as (d' & Hd' & _). eauto.
  - intros k e Hk. rewrite (Hin k e Hk). eexists. split; [done|].
    by destruct (_ && _).
Qed.

(** When neither an entity of the entry nor the device found for it has the
    old address in its name, the propagation only reads: both registries
    are as before, the new calls are the device lookup (if the entry has a
    MAC) and the entity listing, and no count is reported. *)
Theorem update_entity_names_no_match new old st entry :
  config_entry (self st) = Some entry →
  (∀ k e, entity_registry (hass st) !! k = Some e →
     er.config_entry_id e = Some (ConfigEntry.entry_id entry) →
     Py.mentions old (er.name e) = false) →
  (∀ k d, found_device DOMAIN (hass st) entry = Some (k, d) →
     Py.mentions old (dr.name d) = false) →
  let r := _update_entity_names DOMAIN new old st in
  hass r.2 = hass st
  ∧ calls r.2
    = (calls st
       ++ (if Py.truthy (device_identifier entry)
           then [DrGetDevice {[ (DOMAIN, default "" (device_identifier entry)) ]}]
           else [])
       ++ [ErEntriesForConfigEntry (ConfigEntry.entry_id entry)])%list
  ∧ reported_count (calls r.2) = reported_count (calls st).
Proof.
  intros Hce Hents Hdev r. subst r.
  destruct (update_entity_names_run DOMAIN new old st entry Hce)
    as (ents' & Hrun & Hin & Hout).
  rewrite Hrun. proj.
  assert (Hhits : filter (λ p : string * er.RegistryEntry,
                            Py.mentions old (er.name p.2) = true)
                    (er.async_entries_for_config_entry (entity_registry (hass st))
                       (ConfigEntry.entry_id entry)) = []).
  { apply filter_none.
    intros [k e] [Hid Hk]%entries_for_config_entry_spec. cbn [snd].
    by rewrite (Hents k e Hk Hid). }
  assert (Hents' : ents' = entity_registry (hass st)).
  { apply map_eq. intros k.
    destruct (entity_registry (hass st) !! k) as [e|] eqn:Hk; [|by apply Hout].
    rewrite (Hin k e Hk). f_equal.
    destruct (bool_decide_reflect
                (er.config_entry_id e = Some (ConfigEntry.entry_id entry))) as [Hb|Hb];
      [|done].
    by rewrite (Hents k e Hk Hb). }
  rewrite Hhits, Hents'. cbn [length fmap list_fmap].
  rewrite bool_decide_false by lia. rewrite !app_nil_r.
  destruct (found_device DOMAIN (hass st) entry) as [[k d]|] eqn:Hf;
    [rewrite (Hdev k d eq_refl)|]; rewrite ?app_nil_r;
    (split_and!;
     [ by destruct (hass st)
     | done
     | rewrite !reported_count_app; by destruct (Py.truthy _) ]).
Qed.

(** The listener in one equation per case. *)
Lemma config_entry_updated_cases entry st :
  (config_entry (self st) = None
   ∨ ConfigEntry.data entry !! CONF_HOST = None
   ∨ ConfigEntry.data entry !! CONF_HOST = Some (_initial_device_ip (self st)))
  ∧ _async_config_entry_updated DOMAIN entry st = (Return tt, st)
  ∨ ∃ ce host r,
      config_entry (self st) = Some ce
      ∧ ConfigEntry.data entry !! CONF_HOST = Some host
      ∧ host ≠ _initial_device_ip (self st)
      ∧ _update_entity_names DOMAIN host (_initial_device_ip (self st)) st
        = (Return tt, r)
      ∧ self r = self st
      ∧ _async_config_entry_updated DOMAIN entry st =
          (Return tt,
           {| self := {| udp_client := udp_client (self st);
                         config_entry := config_entry (self st);
                         _initial_device_ip := host;
                         _last_pv_fetch := _last_pv_fetch (self st);
                         _last_slow_fetch := _last_slow_fetch (self st);
                         data := data (self st) |};
              hass := hass r;
              calls := calls r |}).
Proof.
  destruct (config_entry (self st)) as [ce|] eqn:Hce.
  2: { left. split; [by left|]. unfold _async_config_entry_updated. run_monad.
       by rewrite Hce. }
  destruct (ConfigEntry.data entry !! CONF_HOST) as [host|] eqn:Hhost.
  2: { left. split; [by right; left|]. apply config_entry_updated_same.
       by rewrite Hhost. }
  destruct (decide (host = _initial_device_ip (self st))) as [-> | Hne].
  { left. split; [by right; right|]. apply config_entry_updated_same.
    by rewrite Hhost. }
  right.
  destruct (config_entry_updated_run DOMAIN entry st ce host Hce Hhost Hne)
    as (r & Hnames & Hself & Hrun).
  exists ce, host, r. by rewrite <- Hce.
Qed.

(** The listener always returns normally, and it leaves the state exactly
    as it found it if and only if the coordinator has no config entry, or
    the entry it is told about has no host, or that host is the stored
    address. *)
Theorem config_entry_updated_noop_iff entry st :
  (_async_config_entry_updated DOMAIN entry st).1 = Return tt
  ∧ ((_async_config_entry_updated DOMAIN entry st).2 = st
     ↔ config_entry (self st) = None
       ∨ ConfigEntry.data entry !! CONF_HOST = None
       ∨ ConfigEntry.data entry !! CONF_HOST = Some (_initial_device_ip (self st))).
Proof.
  destruct (config_entry_updated_cases entry st)
    as [[Hcase Hrun] | (ce & host & r & Hce & Hhost & Hne & _ & _ & Hrun)];
    rewrite Hrun; proj.
  - by split.
  - split; [done|]. split.
    + intros Heq. apply (f_equal (λ s, _initial_device_ip (self s))) in Heq.
      by proj.
    + intros [? | [? | ?]]; congruence.
Qed.

(** Whatever the listener does, it does not touch the polling side of the
    coordinator: both tier timestamps, the stored record, the client and the
    config entry reference are as before. *)
Theorem config_entry_updated_frame entry st :
  let r := _async_config_entry_updated DOMAIN entry st in
  _last_pv_fetch (self r.2) = _last_pv_fetch (self st)
  ∧ _last_slow_fetch (self r.2) = _last_slow_fetch (self st)
  ∧ data (self r.2) = data (self st)
  ∧ udp_client (self r.2) = udp_client (self st)
  ∧ config_entry (self r.2) = config_entry (self st).
Proof.
  intros r. subst r.
  destruct (config_entry_updated_cases entry st)
    as [[_ Hrun] | (ce & host & r & _ & _ & _ & _ & _ & Hrun)];
    rewrite Hrun; by proj.
Qed.

Lemma device_lookups_app cs1 cs2 :
  device_lookups (cs1 ++ cs2) = (device_lookups cs1 ++ device_lookups cs2)%list.
Proof.
  induction cs1 as [|c cs1 IH]; [done|]. destruct c; cbn; by rewrite IH.
Qed.

Lemma device_lookups_entity_updates old new (l : list (string * er.RegistryEntry)) :
  device_lookups
    ((λ p : string * er.RegistryEntry,
        ErUpdateEntity p.1 (Py.replace old new (default "" (er.name p.2)))) <$> l)
  = [].
Proof. induction l as [|p l IH]; [done|]. by rewrite fmap_cons. Qed.

(** The device lookups the propagation adds to the calls: one, for the
    entry's identifier, when the entry has a truthy MAC; none otherwise. *)
Lemma update_entity_names_lookups new old st entry :
  config_entry (self st) = Some entry →
  device_lookups (calls (_update_entity_names DOMAIN new old st).2)
  = (device_lookups (calls st)
     ++ (if Py.truthy (device_identifier entry)
         then [{[ (DOMAIN, default "" (device_identifier entry)) ]}]
         else []))%list.
Proof.
  intros Hce.
  destruct (update_entity_names_run DOMAIN new old st entry Hce)
    as (ents' & Hrun & _ & _).
  rewrite Hrun. proj.
  rewrite !device_lookups_app, device_lookups_entity_updates.
  assert (Hupd : device_lookups
                   match found_device DOMAIN (hass st) entry with
                   | Some (k, d) =>
                       if Py.mentions old (dr.name d)
                       then [DrUpdateDevice k
                               (Py.replace old new (default "" (dr.name d)))]
                       else []
                   | None => []
                   end = []).
  { destruct (found_device _ _ _) as [[k d]|]; [|done].
    by destruct (Py.mentions _ _). }
  rewrite Hupd. f_equal.
  destruct (Py.truthy (device_identifier entry)); by case_bool_decide.
Qed.

(** Which MAC the device lookup uses: when one of [ble_mac], [mac] and
    [wifi_mac] of the entry is non-empty, the propagation asks the device
    registry exactly once, for the identifier made of the domain and the
    first non-empty of the three in that order; when all three are missing
    or empty it asks nothing and the device registry stays as it is. *)
Theorem device_lookup_uses_first_mac new old st entry :
  config_entry (self st) = Some entry →
  let r := _update_entity_names DOMAIN new old st in
  let ble := ConfigEntry.data entry !! "ble_mac" in
  let mac := ConfigEntry.data entry !! "mac" in
  let wifi := ConfigEntry.data entry !! "wifi_mac" in
  (∀ m, m ≠ "" →
     ble = Some m
     ∨ (Py.truthy ble = false ∧ mac = Some m)
     ∨ (Py.truthy ble = false ∧ Py.truthy mac = false ∧ wifi = Some m) →
     device_lookups (calls r.2)
     = (device_lookups (calls st) ++ [{[ (DOMAIN, m) ]}])%list)
  ∧ (Py.truthy ble = false → Py.truthy mac = false → Py.truthy wifi = false →
     device_lookups (calls r.2) = device_lookups (calls st)
     ∧ device_registry (hass r.2) = device_registry (hass st)).
Proof.
  intros Hce r ble mac wifi. subst r.
  rewrite (update_entity_names_lookups new old st entry Hce). split.
  - intros m Hm Hfirst.
    assert (Hid : device_identifier entry = Some m).
    { unfold device_identifier, Py.or_. fold ble mac wifi.
      destruct Hfirst as [-> | [[Hb ->] | (Hb & Hmac & ->)]].
      - by destruct m.
      - rewrite Hb. by destruct m.
      - by rewrite Hb, Hmac. }
    rewrite Hid. by destruct m.
  - intros Hb Hm Hw.
    assert (Hid : Py.truthy (device_identifier entry) = false).
    { unfold device_identifier, Py.or_. fold ble mac wifi. by rewrite Hb, Hm. }
    rewrite Hid, app_nil_r. split; [done|].
    destruct (update_entity_names_run DOMAIN new old st entry Hce)
      as (ents' & Hrun & _ & _).
    rewrite Hrun. proj. unfold found_device. by rewrite Hid.
Qed.

End RebindMore.

(** * The listener and the poll together *)

Section RebindThenPoll.

Variable DOMAIN : string.
Variable DEFAULT_UDP_PORT : Z.

(** A change of the entry's data, listener included, leaves the polling side
    of the coordinator alone. *)
Lemma async_update_entry_polling_side new_data st :
  let r := async_update_entry DOMAIN new_data st in
  _last_pv_fetch (self r.2) = _last_pv_fetch (self st)
  ∧ _last_slow_fetch (self r.2) = _last_slow_fetch (self st)
  ∧ data (self r.2) = data (self st)
  ∧ udp_client (self r.2) = udp_client (self st).
Proof.
  intros r. subst r. unfold async_update_entry, set_entry_data. run_monad. proj.
  destruct (config_entry (self st)) as [entry|]; cbn [fmap option_fmap option_map];
    [|by proj].
  match goal with
  | |- context [_async_config_entry_updated DOMAIN ?e ?s] =>
      destruct (config_entry_updated_cases DOMAIN e s)
        as [[_ Hrun] | (ce & host & r & _ & _ & _ & _ & _ & Hrun)];
      rewrite Hrun; by proj
  end.
Qed.

(** After the entry's host has changed to [host] and the listener has run,
    the next poll goes to [host], with the tier flags computed from the
    timestamps as they were before the change and with the stored record
    as [previous_status]: a rebind neither resets nor advances the cadence. *)
Theorem poll_after_rebind now st entry0 new_data host :
  config_entry (self st) = Some entry0 →
  new_data !! CONF_HOST = Some host →
  is_polling_paused (udp_client (self st)) host = false →
  let st1 := (async_update_entry DOMAIN new_data st).2 in
  ∃ req,
    calls (_async_update_data DEFAULT_UDP_PORT now st1).2
    = (calls st1 ++ [GetDeviceStatus req])%list
    ∧ address req = host
    ∧ include_em req = true
    ∧ (include_pv req = true
       ↔ (60 <=? now - _last_pv_fetch (self st))%float = true)
    ∧ (include_wifi req = true
       ↔ (300 <=? now - _last_slow_fetch (self st))%float = true)
    ∧ previous_status req = data (self st).
Proof.
  intros Hce Hhost Hp st1.
  destruct (async_update_entry_spec DOMAIN new_data st entry0 host Hce Hhost)
    as (_ & _ & _ & Hce1 & _).
  destruct (async_update_entry_polling_side new_data st) as (Hpv & Hslow & Hd & Hcl).
  fold st1 in Hce1, Hpv, Hslow, Hd, Hcl.
  assert (Hip : device_ip (self st1) = host).
  { unfold device_ip. rewrite Hce1. cbn [ConfigEntry.data]. by rewrite Hhost. }
  assert (Hp1 : is_polling_paused (udp_client (self st1)) (device_ip (self st1)) = false).
  { by rewrite Hcl, Hip. }
  eexists. split; [apply (poll_request DEFAULT_UDP_PORT now st1 Hp1)|].
  cbn [address include_em include_pv include_wifi previous_status].
  by rewrite Hip, Hpv, Hslow, Hd.
Qed.

End RebindThenPoll.

(** * The repair flow *)

Section RepairFlow.

Variable DOMAIN : string.

Import Repairs.

Lemma async_get_entry_Some h id entry :
  async_get_entry h id = Some entry →
  entry ∈ config_entries h ∧ ConfigEntry.entry_id entry = id.
Proof.
  unfold async_get_entry. intros [Hin Hb]%find_some.
  split; [by apply list_elem_of_In | by apply bool_decide_eq_true in Hb].
Qed.

Lemma async_get_entry_None h id :
  async_get_entry h id = None ↔
  ∀ entry, entry ∈ config_entries h → ConfigEntry.entry_id entry ≠ id.
Proof.
  unfold async_get_entry. split.
  - intros Hnone entry Hin%list_elem_of_In.
    pose proof (find_none _ _ Hnone entry Hin) as Hb. cbn beta in Hb.
    by apply bool_decide_eq_false in Hb.
  - intros Hno. destruct (List.find _ _) as [entry|] eqn:Hf; [|done].
    apply find_some in Hf as [Hin%list_elem_of_In Hb].
    apply bool_decide_eq_true in Hb. by destruct (Hno entry Hin).
Qed.

(** A fix flow is created exactly when the issue data has an [entry_id],
    and it is the flow for that entry; with no data, empty data or data
    without the key the call raises [ValueError]. *)
Theorem create_fix_flow_iff issue_id data :
  (∀ flow, async_create_fix_flow issue_id data = Return flow
     ↔ ∃ d, data = Some d ∧ d !! "entry_id" = Some (_entry_id flow))
  ∧ (async_create_fix_flow issue_id data
       = Raise (Py.ValueError "No entry_id in issue data")
     ↔ ∀ d, data = Some d → d !! "entry_id" = None).
Proof.
  unfold async_create_fix_flow. destruct data as [d|].
  - destruct (decide (d = ∅)) as [-> | Hne].
    + split.
      * intros flow. split; [done|]. intros (d & [= <-] & Hd).
        by rewrite lookup_empty in Hd.
      * split; [|done]. intros _ d [= <-]. apply lookup_empty.
    + destruct (d !! "entry_id") as [e|] eqn:He.
      * split.
        -- intros [e']. cbn [_entry_id]. split.
           ++ intros [= ->]. eauto.
           ++ intros (d' & [= <-] & Hd). congruence.
        -- split; [done|]. intros Hno. specialize (Hno d eq_refl). congruence.
      * split.
        -- intros flow. split; [done|]. intros (d' & [= <-] & Hd). congruence.
        -- split; [|done]. by intros _ d' [= <-].
  - split.
    + intros flow. split; [done|]. by intros (d & [=] & _).
    + split; [|done]. by intros _ d [=].
Qed.

(** The step aborts with "entry_not_found" exactly when no config entry has
    the flow's id, whatever the user input; nothing is started or deleted
    then. *)
Theorem step_init_abort_iff flow issue_id user_input h :
  ((async_step_init DOMAIN flow issue_id user_input h).1
     = Return (Abort "entry_not_found")
   ↔ ∀ entry, entry ∈ config_entries h →
       ConfigEntry.entry_id entry ≠ _entry_id flow)
  ∧ ((∀ entry, entry ∈ config_entries h →
        ConfigEntry.entry_id entry ≠ _entry_id flow) →
     (async_step_init DOMAIN flow issue_id user_input h).2 = h).
Proof.
  rewrite <- async_get_entry_None. unfold async_step_init.
  destruct (async_get_entry h (_entry_id flow)) as [entry|].
  - split; [|done]. split; [|done].
    destruct user_input; [|done].
    by destruct (flow_async_init h DOMAIN _).
  - done.
Qed.

(** The issue registry changes only by losing the flow's own issue, and it
    loses it exactly when the step ends with [CreateEntry]: the entry was
    found, the user confirmed and the reconfigure flow was started without
    an error.  The config entries are never changed. *)
Theorem step_init_issue_deleted_iff flow issue_id user_input h :
  let r := async_step_init DOMAIN flow issue_id user_input h in
  config_entries r.2 = config_entries h
  ∧ (∀ i, i ≠ (DOMAIN, issue_id) → i ∈ issues r.2 ↔ i ∈ issues h)
  ∧ ((DOMAIN, issue_id) ∈ issues h →
     ((DOMAIN, issue_id) ∉ issues r.2 ↔ r.1 = Return (CreateEntry ∅)))
  ∧ (r.1 = Return (CreateEntry ∅)
     ↔ ∃ entry u, async_get_entry h (_entry_id flow) = Some entry
                  ∧ user_input = Some u
                  ∧ flow_async_init h DOMAIN
                      {[ "source" := SOURCE_RECONFIGURE;
                         "entry_id" := _entry_id flow ]} = Return tt).
Proof.
  intros r. subst r. unfold async_step_init.
  destruct (async_get_entry h (_entry_id flow)) as [entry|] eqn:Hentry.
  2: { cbn. split_and!; try done. split; [done|]. by intros (? & ? & ? & _). }
  apply async_get_entry_Some in Hentry as [_ Hid]. rewrite Hid.
  destruct user_input as [u|].
  2: { cbn. split_and!; try done. split; [done|]. by intros (? & ? & _ & ? & _). }
  destruct (flow_async_init h DOMAIN _) as [[]|e] eqn:Hinit; cbn.
  - split_and!; try done.
    + intros i Hi. rewrite elem_of_difference, elem_of_singleton. tauto.
    + intros Hin. split; [done|]. intros _.
      rewrite elem_of_difference, elem_of_singleton. tauto.
    + split; [|done]. intros _. eauto.
  - split_and!; try done. split; [done|]. by intros (? & ? & _ & _ & ?).
Qed.

(** Confirming - with any input, the empty dict included - starts exactly
    one flow, in the integration's domain, whose context names the source
    "reconfigure" and the flow's own entry id; without a confirmation, or
    without the entry, no flow is started. *)
Theorem step_init_starts_reconfigure flow issue_id user_input h :
  let r := async_step_init DOMAIN flow issue_id user_input h in
  (∀ entry u, async_get_entry h (_entry_id flow) = Some entry →
     user_input = Some u →
     ∃ context,
       flow_inits r.2 = (flow_inits h ++ [(DOMAIN, context)])%list
       ∧ context !! "source" = Some "reconfigure"
       ∧ context !! "entry_id" = Some (_entry_id flow)
       ∧ dom context = {[ "source"; "entry_id" ]})
  ∧ (async_get_entry h (_entry_id flow) = None ∨ user_input = None →
     flow_inits r.2 = flow_inits h).
Proof.
  intros r. subst r. unfold async_step_init. split.
  - intros entry u Hentry ->. rewrite Hentry.
    apply async_get_entry_Some in Hentry as [_ Hid]. rewrite Hid.
    eexists. split.
    + by destruct (flow_async_init h DOMAIN _).
    + split_and!; [done|done|]. by rewrite dom_insert_L, dom_singleton_L.
  - intros [Hnone | ->].
    + by rewrite Hnone.
    + by destruct (async_get_entry h (_entry_id flow)).
Qed.

(** From issue data to the form: for issue data that names an existing
    entry, the flow that [async_create_fix_flow] builds first shows the
    form "init" with the entry's host as its only placeholder ("unknown"
    when the entry has none) and changes nothing. *)
Theorem fix_flow_shows_host issue_id d e entry h :
  d !! "entry_id" = Some e →
  async_get_entry h e = Some entry →
  ∃ flow,
    async_create_fix_flow issue_id (Some d) = Return flow
    ∧ async_step_init DOMAIN flow issue_id None h
      = (Return (Form "init"
                   {[ "host" := default "unknown"
                                  (ConfigEntry.data entry !! "host") ]}),
         h).
Proof.
  intros Hd Hentry. exists {| _entry_id := e |}. split.
  - unfold async_create_fix_flow. rewrite decide_False.
    + by rewrite Hd.
    + intros ->. by rewrite lookup_empty in Hd.
  - unfold async_step_init. cbn [_entry_id]. by rewrite Hentry.
Qed.

End RepairFlow.

(** * The further statements at the concrete installation *)

Lemma poll_other_error_propagates_witness :
  (_async_update_data Demo.udp_port 1000
     (Demo.fresh (Demo.client (Raise (Py.KeyError "result"))))).1
  = Raise (Py.KeyError "result").
Proof.
  refine (proj1 (poll_other_error_propagates Demo.udp_port 1000
            (Demo.fresh (Demo.client (Raise (Py.KeyError "result"))))
            Demo.first_request (Py.KeyError "result") _ _ _ _)).
  - reflexivity.
  - vm_compute. reflexivity.
  - reflexivity.
  - intros msg. split_and!; discriminate.
Defined.

Lemma poll_valid_record_returned_witness :
  (_async_update_data Demo.udp_port 1000
     (Demo.fresh (Demo.client (Return Demo.good_status)))).1
  = Return Demo.good_status.
Proof.
  refine (poll_valid_record_returned Demo.udp_port 1000
            (Demo.fresh (Demo.client (Return Demo.good_status)))
            Demo.first_request Demo.good_status (Py.VStr "Auto") _ _ _ _ _).
  - reflexivity.
  - vm_compute. reflexivity.
  - reflexivity.
  - vm_compute. reflexivity.
  - discriminate.
Defined.

Lemma poll_cadence_from_last_fetch_witness :
  ∃ req2,
    calls (_async_update_data Demo.udp_port 1030
             (with_client (Demo.client (Raise (Py.TimeoutError "timed out")))
                (_async_update_data Demo.udp_port 1000
                   (Demo.fresh (Demo.client (Return Demo.good_status)))).2)).2
    = [GetDeviceStatus Demo.first_request; GetDeviceStatus req2]
    ∧ (include_pv req2 = true ↔ (60 <=? 1030 - 1000)%float = true).
Proof.
  destruct (poll_cadence_from_last_fetch Demo.udp_port 1000 1030
              (Demo.fresh (Demo.client (Return Demo.good_status)))
              Demo.first_request Demo.good_status
              (Demo.client (Raise (Py.TimeoutError "timed out"))))
    as (_ & Hrun).
  - reflexivity.
  - vm_compute. reflexivity.
  - reflexivity.
  - destruct (Hrun eq_refl) as (req2 & Hc & Hpv & _).
    exists req2. split; [exact Hc | exact (Hpv eq_refl)].
Defined.

Lemma poll_targets_entry_host_witness :
  ∃ req,
    calls (_async_update_data Demo.udp_port 1000
             {| self := __init__ (Demo.entry "10.0.0.7")
                          (Demo.client (Return Demo.good_status)) "10.0.0.1";
                hass := Demo.registries; calls := [] |}).2
    = [GetDeviceStatus req]
    ∧ address req = "10.0.0.7".
Proof.
  destruct (poll_targets_entry_host Demo.udp_port 1000
              {| self := __init__ (Demo.entry "10.0.0.7")
                           (Demo.client (Return Demo.good_status)) "10.0.0.1";
                 hass := Demo.registries; calls := [] |}
              (Demo.entry "10.0.0.7") "10.0.0.7")
    as (req & Hc & Ha & _).
  - reflexivity.
  - vm_compute. reflexivity.
  - reflexivity.
  - exists req. split; [exact Hc | exact Ha].
Defined.

Lemma first_poll_tiers_witness :
  ∃ req,
    calls (_async_update_data Demo.udp_port 30
             (Demo.fresh (Demo.client (Return Demo.good_status)))).2
    = [GetDeviceStatus req]
    ∧ (include_pv req = true ↔ (60 <=? 30)%float = true).
Proof.
  destruct (first_poll_tiers Demo.udp_port 30 (Demo.entry "10.0.0.1")
              (Demo.client (Return Demo.good_status)) "10.0.0.1"
              Demo.registries [])
    as (req & Hc & _ & Hpv & _).
  - reflexivity.
  - exists req. split; [exact Hc | exact Hpv].
Defined.

Lemma update_entity_names_no_match_witness :
  hass (_update_entity_names "marstek" "10.0.0.2" "9.9.9.9"
          (Demo.fresh Demo.paused_client)).2
  = hass (Demo.fresh Demo.paused_client).
Proof.
  refine (proj1 (update_entity_names_no_match "marstek" "10.0.0.2" "9.9.9.9"
            (Demo.fresh Demo.paused_client) (Demo.entry "10.0.0.1") _ _ _)).
  - reflexivity.
  - intros k e Hk%elem_of_map_to_list _. vm_compute in Hk.
    repeat (apply elem_of_cons in Hk as [Hk | Hk];
            [injection Hk as -> ->; vm_compute; reflexivity|]).
    by apply elem_of_nil in Hk.
  - intros k d Hf. vm_compute in Hf. injection Hf as <- <-.
    vm_compute. reflexivity.
Defined.

Lemma device_lookup_uses_first_mac_witness :
  device_lookups
    (calls (_update_entity_names "marstek" "10.0.0.2" "10.0.0.1"
              (Demo.fresh Demo.paused_client)).2)
  = [{[ ("marstek", "aabbccddeeff") ]}].
Proof.
  refine (proj1 (device_lookup_uses_first_mac "marstek" "10.0.0.2" "10.0.0.1"
            (Demo.fresh Demo.paused_client) (Demo.entry "10.0.0.1") _)
            "aabbccddeeff" _ _).
  - reflexivity.
  - discriminate.
  - right; left. split; vm_compute; reflexivity.
Defined.

Lemma poll_after_rebind_witness :
  ∃ req,
    calls (_async_update_data Demo.udp_port 1000
             (async_update_entry "marstek"
                {[ "host" := "10.0.0.2"; "mac" := "aabbccddeeff" ]}
                (Demo.fresh (Demo.client (Return Demo.good_status)))).2).2
    = (calls (async_update_entry "marstek"
                {[ "host" := "10.0.0.2"; "mac" := "aabbccddeeff" ]}
                (Demo.fresh (Demo.client (Return Demo.good_status)))).2
       ++ [GetDeviceStatus req])%list
    ∧ address req = "10.0.0.2".
Proof.
  destruct (poll_after_rebind "marstek" Demo.udp_port 1000
              (Demo.fresh (Demo.client (Return Demo.good_status)))
              (Demo.entry "10.0.0.1")
              {[ "host" := "10.0.0.2"; "mac" := "aabbccddeeff" ]} "10.0.0.2")
    as (req & Hc & Ha & _).
  - reflexivity.
  - vm_compute. reflexivity.
  - reflexivity.
  - exists req. split; [exact Hc | exact Ha].
Defined.

Lemma fix_flow_shows_host_witness :
  ∃ flow,
    Repairs.async_create_fix_flow "cannot_connect_entry1"
      (Some {[ "entry_id" := "entry1" ]}) = Return flow
    ∧ Repairs.async_step_init "marstek" flow "cannot_connect_entry1" None
        Repairs.demo_hass
      = (Return (Repairs.Form "init" {[ "host" := "10.0.0.1" ]}), Repairs.demo_hass).
Proof.
  destruct (fix_flow_shows_host "marstek" "cannot_connect_entry1"
              {[ "entry_id" := "entry1" ]} "entry1"
              (ConfigEntry.mk "entry1" {[ "host" := "10.0.0.1"; "mac" := "aabbccddeeff" ]})
              Repairs.demo_hass)
    as (flow & Hc & Hs).
  - vm_compute. reflexivity.
  - vm_compute. reflexivity.
  - exists flow. split; [exact Hc|]. rewrite Hs. reflexivity.
Defined.

(** Confirming the repair with an empty input, end to end. *)
Example repair_confirmed :
  let r := Repairs.async_step_init "marstek" (Repairs.mkFlow "entry1")
             "cannot_connect_entry1" (Some ∅) Repairs.demo_hass in
  r.1 = Return (Repairs.CreateEntry ∅)
  ∧ Repairs.issues r.2 = ∅
  ∧ Repairs.flow_inits r.2
    = [("marstek", {[ "source" := "reconfigure"; "entry_id" := "entry1" ]})].
Proof. vm_compute. split_and!; reflexivity. Qed.
